(** * history_stats: a shallow embedding of the Home Assistant
      "History Statistics" sensor (src/history_stats.py)

    The development follows the source file top-down:

    - [parse_time_expr]: the textual rewriting of time aliases
      (lines 223-235);
    - [HistoryStatsSensor]: the sensor object, its construction and its
      [state_attributes] property (lines 77-133);
    - [update_period]: the window resolution (lines 173-212) with
      [handle_template_exception] (lines 215-220);
    - [async_update]: the update cycle with the elapsed-time loop
      (lines 135-171);
    - [async_setup_platform]: the configuration check (lines 50-74).

    Modelling conventions.

    - Python [int] is [Z].  Python [float] is an exact rational [Q],
      extended by the two infinities and NaN where the code converts
      rendered text ([pyfloat]); rounding errors of binary floating
      point are not modelled, and no statement below depends on them.
    - Python exceptions are values of [exn]; a computation is a function
      from the sensor object to an outcome, the sensor object after the
      computation, and the list of the effects it performed on its
      collaborators (renderer, logger, history store) in order.
    - The renderer and the history store are collaborators outside the
      repository: a cycle is run against a [render_env] and a
      [history.store] that say what they answer. *)

From Stdlib Require Import ZArith QArith Qround List String Ascii Bool Lia.
From Stdlib Require Import DecimalString Lqa.
Import ListNotations.

Local Close Scope Q_scope.
Local Open Scope string_scope.

(** ** Python string operations used by [parse_time_expr] *)

Module Str.

(** [s.startswith(p)], returning what follows the prefix. *)
Fixpoint strip_prefix (p s : string) : option string :=
  match p with
  | EmptyString => Some s
  | String a p' =>
      match s with
      | EmptyString => None
      | String b s' => if Ascii.eqb a b then strip_prefix p' s' else None
      end
  end.

Definition startswith (s p : string) : bool :=
  match strip_prefix p s with Some _ => true | None => false end.

(** Scanning loop of [str.replace] for a non-empty [old]: [skip]
    counts the characters of a replaced occurrence still to be passed
    over, so that occurrences are taken left to right, without
    overlap. *)
Fixpoint replace_scan (skip : nat) (old new s : string) : string :=
  match s with
  | EmptyString => EmptyString
  | String c rest =>
      match skip with
      | S k => replace_scan k old new rest
      | O =>
          if startswith s old
          then new ++ replace_scan (String.length old - 1) old new rest
          else String c (replace_scan 0 old new rest)
      end
  end.

Fixpoint intersperse_after (new s : string) : string :=
  match s with
  | EmptyString => EmptyString
  | String c rest => String c (new ++ intersperse_after new rest)
  end.

(** [s.replace(old, new)].  With an empty [old] Python inserts [new]
    before every character and at the end. *)
Definition replace (s old new : string) : string :=
  match old with
  | EmptyString => new ++ intersperse_after new s
  | _ => replace_scan 0 old new s
  end.

(** Longest prefix of characters satisfying [f], and the rest. *)
Fixpoint span (f : ascii -> bool) (s : string) : string * string :=
  match s with
  | EmptyString => (EmptyString, EmptyString)
  | String c rest =>
      if f c
      then let '(a, b) := span f rest in (String c a, b)
      else (EmptyString, s)
  end.

Fixpoint take (n : nat) (s : string) : string :=
  match n, s with
  | S k, String c rest => String c (take k rest)
  | _, _ => EmptyString
  end.

(** Number of (possibly overlapping) positions where [p] occurs. *)
Fixpoint occurrences (p s : string) : nat :=
  match s with
  | EmptyString => 0
  | String _ rest =>
      (if startswith s p then 1 else 0) + occurrences p rest
  end.

End Str.

(** ** The regular expression of [parse_time_expr]

    [now\(\)(\.replace\([a-z]+=[0-9]+\))*] has no alternative to
    backtrack into: the character classes exclude the character that
    must follow them, and nothing follows the starred group.  Its
    leftmost-longest match is therefore found by a deterministic
    scan. *)

Module Regex.

Definition is_lower (c : ascii) : bool :=
  let n := nat_of_ascii c in (97 <=? n)%nat && (n <=? 122)%nat.

Definition is_digit (c : ascii) : bool :=
  let n := nat_of_ascii c in (48 <=? n)%nat && (n <=? 57)%nat.

(** One iteration of the group [\.replace\([a-z]+=[0-9]+\)]: what
    follows it in [s], when it matches at the start of [s]. *)
Definition match_group (s : string) : option string :=
  match Str.strip_prefix ".replace(" s with
  | None => None
  | Some s1 =>
      match Str.span is_lower s1 with
      | (EmptyString, _) => None
      | (_, s2) =>
          match Str.strip_prefix "=" s2 with
          | None => None
          | Some s3 =>
              match Str.span is_digit s3 with
              | (EmptyString, _) => None
              | (_, s4) => Str.strip_prefix ")" s4
              end
          end
      end
  end.

(** The greedy star: what follows the longest run of groups.  Every
    iteration consumes characters, so [length s] iterations
    suffice. *)
Fixpoint match_groups (fuel : nat) (s : string) : string :=
  match fuel with
  | O => s
  | S k =>
      match match_group s with
      | Some s' => match_groups k s'
      | None => s
      end
  end.

(** Length of the match of the whole expression at the start of [s]. *)
Definition match_here (s : string) : option nat :=
  match Str.strip_prefix "now()" s with
  | None => None
  | Some s1 =>
      let rest := match_groups (String.length s1) s1 in
      Some (String.length s - String.length rest)
  end.

(** [re.sub(regex, r"as_timestamp(\1)", s)]: matches are taken left
    to right without overlap; group 1 is the whole match. *)
Fixpoint sub_scan (skip : nat) (s : string) : string :=
  match s with
  | EmptyString => EmptyString
  | String c rest =>
      match skip with
      | S k => sub_scan k rest
      | O =>
          match match_here s with
          | Some n =>
              "as_timestamp(" ++ Str.take n s ++ ")" ++ sub_scan (n - 1) rest
          | None => String c (sub_scan 0 rest)
          end
      end
  end.

Definition sub (s : string) : string := sub_scan 0 s.

End Regex.

(** ** [parse_time_expr] (lines 223-235) *)

Definition parse_time_expr (str : string) : string :=
  Regex.sub
    (Str.replace
      (Str.replace
        (Str.replace
          (Str.replace
            (Str.replace
              (Str.replace str
                "_THIS_YEAR_" "_THIS_MONTH_.replace(month=1)")
              "_THIS_MONTH_" "_TODAY_.replace(day=1)")
            "_TODAY_" "_THIS_HOUR_.replace(hour=0)")
          "_THIS_HOUR_" "_THIS_MINUTE_.replace(minute=0)")
        "_THIS_MINUTE_" "_NOW_.replace(second=0)")
      "_NOW_" "now()").

(** ** Python values and outcomes *)

(** The exceptions that the code raises, catches or lets through. *)
Inductive exn : Type :=
| TypeError
| AttributeError
| ValueError
| OverflowError
| TemplateError (args : list string).

Inductive result (A : Type) : Type :=
| Ok (a : A)
| Raise (e : exn).

Arguments Ok {A} a.
Arguments Raise {A} e.

(** A Python [float]: a rational, an infinity or NaN. *)
Inductive pyfloat : Type :=
| Finite (q : Q)
| Infinity (negative : bool)
| NaN.

(** [math.floor(x)] on a float: an [int], [OverflowError] on an
    infinity, [ValueError] on NaN. *)
Definition math_floor (x : pyfloat) : result Z :=
  match x with
  | Finite q => Ok (Qfloor q)
  | Infinity _ => Raise OverflowError
  | NaN => Raise ValueError
  end.

(** [x < y] on rationals, as a boolean. *)
Definition Qltb (x y : Q) : bool :=
  (Qnum x * Zpos (Qden y) <? Qnum y * Zpos (Qden x))%Z.

(** [round(x, ndigits)] on exact rationals: the nearest multiple of
    [10^-ndigits], a tie going to the even one. *)
Definition round_half_even (y : Q) : Z :=
  let f := Qfloor y in
  let twice := (Qfloor (y * 2) - 2 * f)%Z in
  if Qeq_bool (inject_Z (Qfloor (y * 2))) (y * 2)%Q && (twice =? 1)%Z
  then (if Z.even f then f else f + 1)%Z
  else (f + twice)%Z.

Definition round (x : Q) (ndigits : nat) : Q :=
  let scale := inject_Z (10 ^ Z.of_nat ndigits) in
  (inject_Z (round_half_even (x * scale)) / scale)%Q.

(** ** The collaborators *)

(** The three optional configuration slots (lines 30-33). *)
Inductive slot : Type := CONF_START | CONF_END | CONF_DURATION.

(** What [float(template.async_render())] evaluates to: [async_render]
    raises [TemplateError] with [ex.args = args], or it returns text
    that [float] rejects with [ValueError], or text that [float]
    converts. *)
Inductive rendered : Type :=
| RenderFails (args : list string)
| NotNumeric
| Numeric (x : pyfloat).

(** The renderer in one update cycle: the outcome for the template of
    each slot. *)
Definition render_env : Type := slot -> rendered.

(** A [datetime] in UTC, as its timestamp in whole seconds. *)
Definition datetime : Type := Z.

Module history.

(** A state change of the history store: [item.state] and
    [item.last_changed.timestamp()]. *)
Record State : Type := {
  state : string;
  last_changed : Q
}.

(** Modelled from the spec: the history component
    ([homeassistant.components.history]) is not part of the repository.
    Section 6 gives the contract of its two calls:
    [state_changes_during_period] returns a mapping from entity ids to
    the ordered state changes, here an association list; [get_state]
    returns the state at or before a moment, if there is one. *)
Record store : Type := {
  state_changes_during_period :
    datetime -> datetime -> string -> list (string * list State);
  get_state : datetime -> string -> option string
}.

End history.

(** [d.get(key)] and [key in d.keys()] on a mapping. *)
Fixpoint dict_get {V : Type} (d : list (string * V)) (key : string)
  : option V :=
  match d with
  | [] => None
  | (k, v) :: d' => if String.eqb k key then Some v else dict_get d' key
  end.

Inductive level : Type := WARNING | ERROR.

(** What a computation does to its collaborators and to the stored
    window, in program order. *)
Inductive effect : Type :=
| Render (k : slot)
| LogText (l : level) (msg : string)
| LogException (l : level) (args : list string)
| AssignPeriod (period : option Z * option Z)
| StateChangesDuringPeriod (start end_ : datetime) (entity_id : string)
| GetState (at_ : datetime) (entity_id : string).

(** ** The sensor object (lines 77-93) *)

Definition Template : Type := string.

Record HistoryStatsSensor : Type := {
  _entity_id : string;
  _entity_state : string;
  _duration : option Template;
  _start : option Template;
  _end : option Template;
  _name : string;
  _unit_of_measurement : string;
  _init : Q;
  _period : option Z * option Z;
  value : Q
}.

Definition UNIT : string := "h".
Definition ICON : string := "mdi:calculator".
Definition WARMING_TIME : Z := 3.
Definition DEFAULT_NAME : string := "History Statistics".

(** [HistoryStatsSensor.__init__]; [now] is [datetime.datetime.now()]
    at construction. *)
Definition __init__ (entity_id entity_state : string)
  (start end_ duration : option Template) (name : string) (now : Q)
  : HistoryStatsSensor :=
  {| _entity_id := entity_id;
     _entity_state := entity_state;
     _duration := duration;
     _start := start;
     _end := end_;
     _name := name;
     _unit_of_measurement := UNIT;
     _init := now;
     _period := (None, None);
     value := 0%Q |}.

(** The [state] property (lines 107-110): the reported value. *)
Definition state (self : HistoryStatsSensor) : Q := value self.

Definition with_period (self : HistoryStatsSensor) (p : option Z * option Z)
  : HistoryStatsSensor :=
  {| _entity_id := _entity_id self;
     _entity_state := _entity_state self;
     _duration := _duration self;
     _start := _start self;
     _end := _end self;
     _name := _name self;
     _unit_of_measurement := _unit_of_measurement self;
     _init := _init self;
     _period := p;
     value := value self |}.

Definition with_value (self : HistoryStatsSensor) (v : Q)
  : HistoryStatsSensor :=
  {| _entity_id := _entity_id self;
     _entity_state := _entity_state self;
     _duration := _duration self;
     _start := _start self;
     _end := _end self;
     _name := _name self;
     _unit_of_measurement := _unit_of_measurement self;
     _init := _init self;
     _period := _period self;
     value := v |}.

(** ** Computations on the sensor object

    A method body is a function from the object to its outcome, the
    object afterwards and the effects performed.  An exception leaves
    the object as the statements before it made it. *)

Definition M (A : Type) : Type :=
  HistoryStatsSensor -> result A * HistoryStatsSensor * list effect.

Definition ret {A : Type} (a : A) : M A := fun self => (Ok a, self, []).

Definition raise {A : Type} (e : exn) : M A :=
  fun self => (Raise e, self, []).

Definition bind {A B : Type} (m : M A) (f : A -> M B) : M B :=
  fun self =>
    match m self with
    | (Ok a, self', t) =>
        let '(r, self'', t') := f a self' in (r, self'', (t ++ t')%list)
    | (Raise e, self', t) => (Raise e, self', t)
    end.

Definition lift {A : Type} (r : result A) : M A := fun self => (r, self, []).

Definition emit (e : effect) : M unit := fun self => (Ok tt, self, [e]).

Definition get_self : M HistoryStatsSensor := fun self => (Ok self, self, []).

(** [try: m  except ...: h]: [h e] is the handler of the first clause
    that matches [e], if one does. *)
Definition try_except {A : Type} (m : M A) (h : exn -> option (M A)) : M A :=
  fun self =>
    match m self with
    | (Ok a, self', t) => (Ok a, self', t)
    | (Raise e, self', t) =>
        match h e with
        | Some k =>
            let '(r, self'', t') := k self' in (r, self'', (t ++ t')%list)
        | None => (Raise e, self', t)
        end
    end.

Notation "x <- m ;; k" := (bind m (fun x => k))
  (at level 61, m at next level, right associativity).
Notation "m ;; k" := (bind m (fun _ => k))
  (at level 61, right associativity).

Definition outcome {A : Type} (r : result A * HistoryStatsSensor * list effect)
  : result A := fst (fst r).
Definition final {A : Type} (r : result A * HistoryStatsSensor * list effect)
  : HistoryStatsSensor := snd (fst r).
Definition trace {A : Type} (r : result A * HistoryStatsSensor * list effect)
  : list effect := snd r.

(** [self._period = start, end] *)
Definition assign_period (period : option Z * option Z) : M unit :=
  fun self => (Ok tt, with_period self period, [AssignPeriod period]).

(** [self.value = v] *)
Definition assign_value (v : Q) : M unit :=
  fun self => (Ok tt, with_value self v, []).

(** ** [handle_template_exception] (lines 215-220) *)

Definition handle_template_exception (args : list string) : M unit :=
  match args with
  | a0 :: _ =>
      if Str.startswith a0 "UndefinedError: 'None' has no attribute"
      then emit (LogException WARNING args)
      else emit (LogException ERROR args)
  | [] => emit (LogException ERROR args)
  end.

(** ** [update_period] (lines 173-212) *)

(** [math.floor(float(template.async_render()))], where [template] is
    the attribute of the slot [k]; on [None] the attribute lookup
    [None.async_render] raises [AttributeError]. *)
Definition render_floor (env : render_env) (k : slot)
  (template : option Template) : M Z :=
  match template with
  | None => raise AttributeError
  | Some _ =>
      emit (Render k) ;;
      match env k with
      | RenderFails args => raise (TemplateError args)
      | NotNumeric => raise ValueError
      | Numeric x => lift (math_floor x)
      end
  end.

Definition dquote : string := String "034"%char EmptyString.

(** [_LOGGER.error('Value for "name" cannot be converted to
    timestamp ')] *)
Definition cannot_convert (name : string) : effect :=
  LogText ERROR
    ("Value for " ++ dquote ++ name ++ dquote
     ++ " cannot be converted to timestamp ").

(** The two [except] clauses that follow each of the three [try]
    blocks; [name] is the slot's name in the message. *)
Definition except_render (name : string) (e : exn) : option (M (option Z)) :=
  match e with
  | TemplateError args => Some (handle_template_exception args ;; ret None)
  | ValueError => Some (emit (cannot_convert name) ;; ret None)
  | _ => None
  end.

(** Truth value of an optional [int]: [None] and [0] are false. *)
Definition truthy (x : option Z) : bool :=
  match x with
  | Some v => negb (v =? 0)%Z
  | None => false
  end.

Definition is_None {A : Type} (x : option A) : bool :=
  match x with Some _ => false | None => true end.

(** [x + y] and [x - y] on values that are an [int] or [None]:
    [TypeError] when an operand is [None]. *)
Definition py_add (x y : option Z) : M Z :=
  match x, y with
  | Some a, Some b => ret (a + b)%Z
  | _, _ => raise TypeError
  end.

Definition py_sub (x y : option Z) : M Z :=
  match x, y with
  | Some a, Some b => ret (a - b)%Z
  | _, _ => raise TypeError
  end.

(** The [try] statement that the source writes out for each slot
    (lines 179-184, 187-192 and 199-204): the local variable of the
    slot becomes the floor of the rendered number, and stays [None]
    when one of the two [except] clauses catches. *)
Definition try_render (env : render_env) (k : slot) (name : string)
  (template : option Template) : M (option Z) :=
  try_except
    (v <- render_floor env k template ;; ret (Some v))
    (except_render name).

Definition update_period (env : render_env) : M unit :=
  self <- get_self ;;
  start <-
    match _start self with
    | Some _ => try_render env CONF_START "start" (_start self)
    | None => ret None
    end ;;
  end_ <-
    match _end self with
    | Some _ => try_render env CONF_END "end" (_end self)
    | None => ret None
    end ;;
  if negb (is_None start) && negb (is_None end_) then
    assign_period (start, end_)
  else
    duration <- try_render env CONF_DURATION "duration" (_duration self) ;;
    if is_None end_ && truthy start then
      stop <- py_add start duration ;;
      assign_period (start, Some stop)
    else if is_None start then
      begin <- py_sub end_ duration ;;
      assign_period (Some begin, end_)
    else ret tt.

(** ** [state_attributes] (lines 122-128) *)

(** [datetime.datetime.fromtimestamp(t).strftime('%Y-%m-%d %H:%M:%S')].
    On [None] the conversion raises [TypeError]; on an [int] the text
    depends on the host's time zone and is given by [local_format]. *)
Definition fromtimestamp_strftime (local_format : Z -> result string)
  (t : option Z) : result string :=
  match t with
  | None => Raise TypeError
  | Some v => local_format v
  end.

Definition state_attributes (local_format : Z -> result string)
  (self : HistoryStatsSensor) : result (list (string * string)) :=
  match fromtimestamp_strftime local_format (fst (_period self)) with
  | Raise e => Raise e
  | Ok a =>
      match fromtimestamp_strftime local_format (snd (_period self)) with
      | Raise e => Raise e
      | Ok b => Ok [("start", a); ("end", b)]
      end
  end.

(** ** [async_update] (lines 135-171) *)

(** [datetime.datetime.utcfromtimestamp(t).replace(tzinfo=pytz.UTC)],
    as CPython with a 64-bit [time_t] does it: [TypeError] on [None],
    [OverflowError] outside [time_t], [ValueError] outside the years
    1 to 9999. *)
Definition MIN_TIMESTAMP : Z := -62135596800.
Definition MAX_TIMESTAMP : Z := 253402300799.
Definition TIME_T_MIN : Z := -9223372036854775808.
Definition TIME_T_MAX : Z := 9223372036854775807.

Definition utcfromtimestamp (t : option Z) : result datetime :=
  match t with
  | None => Raise TypeError
  | Some v =>
      if ((v <? TIME_T_MIN) || (TIME_T_MAX <? v))%Z then Raise OverflowError
      else if ((v <? MIN_TIMESTAMP) || (MAX_TIMESTAMP <? v))%Z
           then Raise ValueError
           else Ok v
  end.

(** The variables of the loop of lines 161-169. *)
Record loop_vars : Type := {
  last_state : bool;
  last_time : Q;
  elapsed : Q
}.

(** The body of the loop, for one [item]. *)
Definition loop_body (entity_state : string) (vars : loop_vars)
  (item : history.State) : loop_vars :=
  let current_state := String.eqb (history.state item) entity_state in
  let current_time := history.last_changed item in
  {| last_state := current_state;
     last_time := current_time;
     elapsed := if last_state vars
                then (elapsed vars + (current_time - last_time vars))%Q
                else elapsed vars |}.

(** Lines 155-169: the first state, then the loop; the value of
    [elapsed] after it. *)
Definition elapsed_in_state (entity_state : string)
  (first_state : option string) (start_timestamp : Z)
  (items : list history.State) : Q :=
  let last_state :=
    match first_state with
    | Some st => String.eqb st entity_state
    | None => false
    end in
  elapsed
    (fold_left (loop_body entity_state) items
       {| last_state := last_state;
          last_time := inject_Z start_timestamp;
          elapsed := 0%Q |}).

(** [now] is [datetime.datetime.now().timestamp()] at the warm-up
    test.  A datetime being its timestamp, [start] is also the integer
    [start_timestamp] that line 157 gives to [last_time]. *)
Definition async_update (env : render_env) (hist : history.store) (now : Q)
  : M unit :=
  update_period env ;;
  self <- get_self ;;
  let '(start_timestamp, end_timestamp) := _period self in
  start <- lift (utcfromtimestamp start_timestamp) ;;
  end_ <- lift (utcfromtimestamp end_timestamp) ;;
  if Qltb now (inject_Z WARMING_TIME + _init self)%Q then ret tt
  else
    emit (StateChangesDuringPeriod start end_ (_entity_id self)) ;;
    let history_list :=
      history.state_changes_during_period hist start end_ (_entity_id self) in
    match dict_get history_list (_entity_id self) with
    | None => ret tt
    | Some items =>
        emit (GetState start (_entity_id self)) ;;
        let first_state := history.get_state hist start (_entity_id self) in
        let elapsed :=
          elapsed_in_state (_entity_state self) first_state start items in
        assign_value (round (elapsed / 3600) 2)
    end.

(** ** [async_setup_platform] (lines 50-74) *)

Record config : Type := {
  conf_entity_id : string;
  conf_state : string;
  conf_start : option Template;
  conf_end : option Template;
  conf_duration : option Template;
  conf_name : string
}.

(** The two tests of lines 61-64: exactly two of the three slots are
    given. *)
Definition two_of_three (c : config) : bool :=
  negb ((is_None (conf_start c) && is_None (conf_end c))
        || (is_None (conf_start c) && is_None (conf_duration c))
        || (is_None (conf_end c) && is_None (conf_duration c)))
  && negb (negb (is_None (conf_start c)) && negb (is_None (conf_end c))
           && negb (is_None (conf_duration c))).

(** The sensor that the platform adds: every given template has its
    time aliases rewritten.  [raise _LOGGER.error(...)] logs and then
    raises [TypeError], as the logger returns [None]. *)
Definition async_setup_platform (c : config) (now : Q)
  : result HistoryStatsSensor * list effect :=
  if (is_None (conf_start c) && is_None (conf_end c))
     || (is_None (conf_start c) && is_None (conf_duration c))
     || (is_None (conf_end c) && is_None (conf_duration c))
  then (Raise TypeError,
        [LogText ERROR
           "You must provide 2 of the following : start, end, duration"])
  else if negb (is_None (conf_start c)) && negb (is_None (conf_end c))
          && negb (is_None (conf_duration c))
  then (Raise TypeError,
        [LogText ERROR
           "You have to pick exactly 2 of the following: start, end, duration"])
  else (Ok (__init__ (conf_entity_id c) (conf_state c)
              (option_map parse_time_expr (conf_start c))
              (option_map parse_time_expr (conf_end c))
              (option_map parse_time_expr (conf_duration c))
              (conf_name c) now),
        []).

(** ** Successive update cycles *)

Record cycle : Type := {
  cycle_env : render_env;
  cycle_history : history.store;
  cycle_now : Q
}.

(** The host calls [async_update] once per cycle, whatever the outcome
    of the previous one; the effects of all cycles, in order. *)
Fixpoint run_cycles (self : HistoryStatsSensor) (cycles : list cycle)
  : HistoryStatsSensor * list effect :=
  match cycles with
  | [] => (self, [])
  | c :: rest =>
      let r := async_update (cycle_env c) (cycle_history c) (cycle_now c)
                 self in
      let '(self', t') := run_cycles (final r) rest in
      (self', (trace r ++ t')%list)
  end.

Definition is_assignment (e : effect) : bool :=
  match e with AssignPeriod _ => true | _ => false end.

Definition is_history_call (e : effect) : bool :=
  match e with
  | StateChangesDuringPeriod _ _ _ | GetState _ _ => true
  | _ => false
  end.


(** ** Summary of one [try] block of [update_period]

    What the local variable holds after the block, or the exception
    that leaves it, and the effects of the block, read off
    [render_floor] and [except_render]. *)

Definition slot_value (r : rendered) : result (option Z) :=
  match r with
  | RenderFails _ => Ok None
  | NotNumeric => Ok None
  | Numeric (Finite q) => Ok (Some (Qfloor q))
  | Numeric (Infinity _) => Raise OverflowError
  | Numeric NaN => Ok None
  end.

Definition slot_effects (k : slot) (name : string) (r : rendered)
  : list effect :=
  Render k ::
  match r with
  | RenderFails [] => [LogException ERROR []]
  | RenderFails (a0 :: args) =>
      if Str.startswith a0 "UndefinedError: 'None' has no attribute"
      then [LogException WARNING (a0 :: args)]
      else [LogException ERROR (a0 :: args)]
  | NotNumeric => [cannot_convert name]
  | Numeric NaN => [cannot_convert name]
  | Numeric _ => []
  end.

(** A slot is unresolved in a cycle when its local variable is [None]
    after its block: the slot is not configured, or its rendering
    failed in one of the ways the block catches. *)
Definition unresolved (template : option Template) (r : rendered) : Prop :=
  match template with
  | None => True
  | Some _ => slot_value r = Ok None
  end.

(** A slot resolves to [v] when it is configured and its rendering is
    a finite number with floor [v]. *)
Definition resolves_to (template : option Template) (r : rendered) (v : Z)
  : Prop :=
  template <> None /\ exists q : Q, r = Numeric (Finite q) /\ v = Qfloor q.

(** The cycle gets as far as the loop over the history: the window is
    resolved to [(start_ts, end_ts)], both convert to datetimes, the
    warm-up time is over and the history has [items] for the entity. *)
Definition reaches_accumulator (env : render_env) (hist : history.store)
  (now : Q) (self : HistoryStatsSensor) (start_ts end_ts : Z)
  (items : list history.State) : Prop :=
  outcome (update_period env self) = Ok tt
  /\ _period (final (update_period env self)) = (Some start_ts, Some end_ts)
  /\ utcfromtimestamp (Some start_ts) = Ok start_ts
  /\ utcfromtimestamp (Some end_ts) = Ok end_ts
  /\ Qltb now (inject_Z WARMING_TIME + _init self)%Q = false
  /\ dict_get
       (history.state_changes_during_period hist start_ts end_ts
          (_entity_id self))
       (_entity_id self) = Some items.

(** ** The sweep as the spec states it (section 4.3) *)

Module Spec.



End Spec.



(** ** Time expressions as trees

    The text that [parse_time_expr] produces for an alias is the
    printed form of a chain of field replacements on [now()], inside
    one conversion to a timestamp. *)

Module TimeExpr.

Inductive moment : Type :=
| now
| replace (m : moment) (field : string) (value : nat).

Inductive expr : Type :=
| as_timestamp (m : moment).

Fixpoint show_moment (m : moment) : string :=
  match m with
  | now => "now()"
  | replace m' field v =>
      show_moment m' ++ ".replace(" ++ field ++ "="
      ++ NilZero.string_of_uint (Nat.to_uint v) ++ ")"
  end.

Definition show (e : expr) : string :=
  match e with
  | as_timestamp m => "as_timestamp(" ++ show_moment m ++ ")"
  end.

(** The value that the chain gives to a field, if it replaces it: the
    outermost replacement of a field wins. *)
Fixpoint override (m : moment) (field : string) : option nat :=
  match m with
  | now => None
  | replace m' g v => if String.eqb field g then Some v else override m' field
  end.

(** Two chains are equivalent when they replace the same fields by the
    same values. *)
Definition equivalent (m1 m2 : moment) : Prop :=
  forall field, override m1 field = override m2 field.

(** What [_TODAY_] expands to, and the expression the spec names. *)
Definition today_expanded : moment :=
  replace (replace (replace now "second" 0) "minute" 0) "hour" 0.

Definition today_spec : moment :=
  replace (replace (replace now "hour" 0) "minute" 0) "second" 0.

End TimeExpr.

(** ** Concrete configurations, renderers and histories *)

Module Example.

Definition renders (start end_ duration : rendered) : render_env :=
  fun k =>
    match k with
    | CONF_START => start
    | CONF_END => end_
    | CONF_DURATION => duration
    end.

Definition number (n : Z) : rendered := Numeric (Finite (inject_Z n)).

Definition undefined : rendered :=
  RenderFails ["UndefinedError: 'None' has no attribute 'state'"].

(** A history that holds [items] for [entity_id] in every period and
    answers [first] to [get_state]. *)
Definition history_of (entity_id : string) (items : list history.State)
  (first : option string) : history.store :=
  {| history.state_changes_during_period := fun _ _ _ => [(entity_id, items)];
     history.get_state := fun _ _ => first |}.

Definition change (st : string) (t : Z) : history.State :=
  {| history.state := st; history.last_changed := inject_Z t |}.

(** [start] and [duration] configured. *)
Definition config_start_duration : config :=
  {| conf_entity_id := "binary_sensor.door";
     conf_state := "on";
     conf_start := Some "{{ _TODAY_ }}";
     conf_end := None;
     conf_duration := Some "{{ states.input_number.span.state }}";
     conf_name := DEFAULT_NAME |}.

Definition sensor_start_duration : HistoryStatsSensor :=
  __init__ "binary_sensor.door" "on"
    (Some ("{{ as_timestamp(now().replace(second=0)"
           ++ ".replace(minute=0).replace(hour=0)) }}"))
    None
    (Some "{{ states.input_number.span.state }}")
    DEFAULT_NAME 0%Q.

(** [start] and [end] configured. *)
Definition config_start_end : config :=
  {| conf_entity_id := "binary_sensor.door";
     conf_state := "on";
     conf_start := Some "{{ states.input_number.from.state }}";
     conf_end := Some "{{ _NOW_ }}";
     conf_duration := None;
     conf_name := DEFAULT_NAME |}.

Definition sensor_start_end : HistoryStatsSensor :=
  __init__ "binary_sensor.door" "on"
    (Some "{{ states.input_number.from.state }}")
    (Some "{{ as_timestamp(now()) }}")
    None
    DEFAULT_NAME 0%Q.

(** [end] and [duration] configured. *)
Definition config_end_duration : config :=
  {| conf_entity_id := "binary_sensor.door";
     conf_state := "on";
     conf_start := None;
     conf_end := Some "{{ _NOW_ }}";
     conf_duration := Some "{{ states.input_number.span.state }}";
     conf_name := DEFAULT_NAME |}.

Definition sensor_end_duration : HistoryStatsSensor :=
  __init__ "binary_sensor.door" "on"
    None
    (Some "{{ as_timestamp(now()) }}")
    (Some "{{ states.input_number.span.state }}")
    DEFAULT_NAME 0%Q.

End Example.

(** ** Slots of a configuration and of a sensor *)

(** Number of slots that a configuration gives. *)
Definition given (c : config) : nat :=
  (if is_None (conf_start c) then 0 else 1)
  + (if is_None (conf_end c) then 0 else 1)
  + (if is_None (conf_duration c) then 0 else 1).

(** The template attribute of a slot. *)
Definition slot_template (self : HistoryStatsSensor) (k : slot)
  : option Template :=
  match k with
  | CONF_START => _start self
  | CONF_END => _end self
  | CONF_DURATION => _duration self
  end.

Definition configured (self : HistoryStatsSensor) (k : slot) : bool :=
  negb (is_None (slot_template self k)).

Definition configured_slots (self : HistoryStatsSensor) : nat :=
  List.length
    (filter (configured self) [CONF_START; CONF_END; CONF_DURATION]).





(** The slots that a trace renders, in order. *)
Fixpoint renders_of (t : list effect) : list slot :=
  match t with
  | [] => []
  | Render k :: t' => k :: renders_of t'
  | _ :: t' => renders_of t'
  end.

Definition is_log (e : effect) : bool :=
  match e with
  | LogText _ _ | LogException _ _ => true
  | _ => false
  end.

Definition is_get_state (e : effect) : bool :=
  match e with GetState _ _ => true | _ => false end.

(** A window of two integers. *)
Definition is_whole (p : option Z * option Z) : bool :=
  negb (is_None (fst p)) && negb (is_None (snd p)).

(** The loop variables before the first event. *)
Definition loop_start (entity_state : string) (first_state : option string)
  (start_timestamp : Z) : loop_vars :=
  {| last_state :=
       match first_state with
       | Some st => String.eqb st entity_state
       | None => false
       end;
     last_time := inject_Z start_timestamp;
     elapsed := 0%Q |}.


(** Whether an event enters the target state. *)
Definition in_state (entity_state : string) (item : history.State) : bool :=
  String.eqb (history.state item) entity_state.

(** The conversion of a window to two datetimes raises [e] (lines
    141-142): at the start, or at the end after the start converted. *)
Definition conversion_raises (p : option Z * option Z) (e : exn) : Prop :=
  utcfromtimestamp (fst p) = Raise e
  \/ (exists a, utcfromtimestamp (fst p) = Ok a
                /\ utcfromtimestamp (snd p) = Raise e).

(** ** Texts and chains for [parse_time_expr] *)

Definition is_underscore (c : ascii) : bool := Ascii.eqb c "_"%char.

Fixpoint string_forallb (f : ascii -> bool) (s : string) : bool :=
  match s with
  | EmptyString => true
  | String c rest => f c && string_forallb f rest
  end.

Definition no_underscore (s : string) : bool :=
  string_forallb (fun c => negb (is_underscore c)) s.

(** A field name that the regular expression accepts: lower-case
    letters, at least one. *)
Definition field_name (s : string) : bool :=
  match s with
  | EmptyString => false
  | _ => string_forallb Regex.is_lower s
  end.

(** The six aliases, from the coarsest to the finest (lines 229-235). *)
Definition ALIASES : list string :=
  ["_THIS_YEAR_"; "_THIS_MONTH_"; "_TODAY_"; "_THIS_HOUR_"; "_THIS_MINUTE_";
   "_NOW_"].

(** No alias and no [now()] occurs in the text. *)
Definition plain (s : string) : bool :=
  forallb (fun p => Nat.eqb (Str.occurrences p s) 0) ("now()" :: ALIASES).

Inductive alias : Type :=
| THIS_YEAR | THIS_MONTH | TODAY | THIS_HOUR | THIS_MINUTE | NOW.

Definition token (a : alias) : string :=
  match a with
  | THIS_YEAR => "_THIS_YEAR_"
  | THIS_MONTH => "_THIS_MONTH_"
  | TODAY => "_TODAY_"
  | THIS_HOUR => "_THIS_HOUR_"
  | THIS_MINUTE => "_THIS_MINUTE_"
  | NOW => "_NOW_"
  end.

(** The chain that the replacements of lines 229-235 build for an
    alias: each alias is the next finer one with one more field
    replaced. *)
Definition chain (a : alias) : TimeExpr.moment :=
  let this_minute := TimeExpr.replace TimeExpr.now "second" 0 in
  let this_hour := TimeExpr.replace this_minute "minute" 0 in
  let today := TimeExpr.replace this_hour "hour" 0 in
  let this_month := TimeExpr.replace today "day" 1 in
  let this_year := TimeExpr.replace this_month "month" 1 in
  match a with
  | THIS_YEAR => this_year
  | THIS_MONTH => this_month
  | TODAY => today
  | THIS_HOUR => this_hour
  | THIS_MINUTE => this_minute
  | NOW => TimeExpr.now
  end.

(** Further replacements that a template writes after an alias or
    after [now()]: [.replace(field=value)], one after the other. *)
Fixpoint replaces (m : TimeExpr.moment) (rs : list (string * nat))
  : TimeExpr.moment :=
  match rs with
  | [] => m
  | (field, value) :: rest => replaces (TimeExpr.replace m field value) rest
  end.

Fixpoint replaces_text (rs : list (string * nat)) : string :=
  match rs with
  | [] => ""
  | (field, value) :: rest =>
      ".replace(" ++ field ++ "="
      ++ NilZero.string_of_uint (Nat.to_uint value) ++ ")"
      ++ replaces_text rest
  end.

(** Whether the loop starts in the target state (line 156). *)
Definition starts_in_state (entity_state : string)
  (first_state : option string) : bool :=
  match first_state with
  | Some st => String.eqb st entity_state
  | None => false
  end.

(** The replacements of a chain, as text: what follows [now()]. *)
Fixpoint groups_text (m : TimeExpr.moment) : string :=
  match m with
  | TimeExpr.now => ""
  | TimeExpr.replace m' field value =>
      groups_text m' ++ ".replace(" ++ field ++ "="
      ++ NilZero.string_of_uint (Nat.to_uint value) ++ ")"
  end.

Fixpoint groups_count (m : TimeExpr.moment) : nat :=
  match m with
  | TimeExpr.now => 0
  | TimeExpr.replace m' _ _ => S (groups_count m')
  end.

(** Every field of the chain is a name that the regular expression
    accepts. *)
Fixpoint fields_ok (m : TimeExpr.moment) : bool :=
  match m with
  | TimeExpr.now => true
  | TimeExpr.replace m' field _ => field_name field && fields_ok m'
  end.

(** * Properties *)

(** ** The scan for the regular expression *)

Lemma strip_prefix_length (p : string) :
  forall s s' : string,
    Str.strip_prefix p s = Some s' ->
    String.length s = (String.length p + String.length s')%nat.
Proof.
  induction p as [| a p IH]; intros s s' H; simpl in *.
  - injection H as ->. reflexivity.
  - destruct s as [| b s]; [discriminate |].
    destruct (Ascii.eqb a b); [| discriminate].
    simpl. rewrite (IH s s' H). reflexivity.
Qed.

Lemma span_length (f : ascii -> bool) (s : string) :
  String.length s
  = (String.length (fst (Str.span f s))
     + String.length (snd (Str.span f s)))%nat.
Proof.
  induction s as [| c s IH]; simpl.
  - reflexivity.
  - destruct (f c); simpl; [| reflexivity].
    destruct (Str.span f s) as [a b]. simpl in *. rewrite IH. reflexivity.
Qed.

(** An iteration of the group consumes characters. *)
Lemma match_group_shorter (s s' : string) :
  Regex.match_group s = Some s' -> (String.length s' < String.length s)%nat.
Proof.
  unfold Regex.match_group. intros H.
  destruct (Str.strip_prefix ".replace(" s) as [s1 |] eqn:E1; [| discriminate].
  apply strip_prefix_length in E1.
  pose proof (span_length Regex.is_lower s1) as L1.
  destruct (Str.span Regex.is_lower s1) as [a s2].
  destruct a as [| c a]; [discriminate |].
  destruct (Str.strip_prefix "=" s2) as [s3 |] eqn:E2; [| discriminate].
  apply strip_prefix_length in E2.
  pose proof (span_length Regex.is_digit s3) as L2.
  destruct (Str.span Regex.is_digit s3) as [d s4].
  destruct d as [| c' d]; [discriminate |].
  apply strip_prefix_length in H.
  simpl in *. lia.
Qed.

(** With [length s] iterations allowed the star stops only where the
    group matches no more: the match is the longest one. *)
Lemma match_groups_maximal (fuel : nat) :
  forall s : string,
    (String.length s <= fuel)%nat ->
    Regex.match_group (Regex.match_groups fuel s) = None.
Proof.
  induction fuel as [| k IH]; intros s Hlen; simpl.
  - destruct s; [reflexivity | simpl in Hlen; lia].
  - destruct (Regex.match_group s) as [s' |] eqn:E.
    + apply IH. apply match_group_shorter in E. lia.
    + exact E.
Qed.

(** ** The arithmetic of the model *)

Lemma Qltb_lt (x y : Q) : Qltb x y = true <-> (x < y)%Q.
Proof. unfold Qltb, Qlt. apply Z.ltb_lt. Qed.

(** [round_half_even] goes to an integer at distance at most one half. *)
Lemma round_half_even_near (y : Q) :
  (inject_Z (round_half_even y) - y <= 1 # 2)%Q
  /\ (y - inject_Z (round_half_even y) <= 1 # 2)%Q.
Proof.
  unfold round_half_even.
  pose proof (Qfloor_le y) as Hf1.
  pose proof (Qlt_floor y) as Hf2.
  pose proof (Qfloor_le (y * 2)) as Hg1.
  pose proof (Qlt_floor (y * 2)) as Hg2.
  set (f := Qfloor y) in *.
  set (g := Qfloor (y * 2)) in *.
  rewrite inject_Z_plus in Hf2, Hg2.
  change (inject_Z 1) with 1%Q in *.
  assert (2 * f <= g < 2 * f + 2)%Z as Hfg.
  { split.
    - apply Z.lt_succ_r. rewrite Zlt_Qlt. unfold Z.succ.
      rewrite inject_Z_plus, inject_Z_mult.
      change (inject_Z 1) with 1%Q. change (inject_Z 2) with 2%Q. lra.
    - rewrite Zlt_Qlt. rewrite inject_Z_plus, inject_Z_mult.
      change (inject_Z 2) with 2%Q. lra. }
  destruct (Qeq_bool (inject_Z g) (y * 2) && (g - 2 * f =? 1)%Z) eqn:Htie.
  - apply andb_true_iff in Htie. destruct Htie as [Heq Hone].
    apply Qeq_bool_iff in Heq. apply Z.eqb_eq in Hone.
    assert (g = 2 * f + 1)%Z as Hg by lia.
    rewrite Hg, inject_Z_plus, inject_Z_mult in Heq.
    change (inject_Z 1) with 1%Q in Heq. change (inject_Z 2) with 2%Q in Heq.
    destruct (Z.even f);
      [| rewrite inject_Z_plus; change (inject_Z 1) with 1%Q]; split; lra.
  - assert (g = 2 * f \/ g = 2 * f + 1)%Z as [Hg | Hg] by lia.
    + replace (g - 2 * f)%Z with 0%Z by lia. rewrite Z.add_0_r.
      rewrite Hg, inject_Z_mult in Hg2.
      change (inject_Z 2) with 2%Q in Hg2. split; lra.
    + replace (g - 2 * f)%Z with 1%Z by lia. rewrite inject_Z_plus.
      rewrite Hg, inject_Z_plus, inject_Z_mult in Hg1.
      change (inject_Z 1) with 1%Q in *. change (inject_Z 2) with 2%Q in Hg1.
      split; lra.
Qed.

(** [round(x, 2)] is within half a hundredth of [x]. *)
Lemma round_near (x : Q) :
  (round x 2 - x <= 1 # 200)%Q /\ (x - round x 2 <= 1 # 200)%Q.
Proof.
  unfold round.
  destruct (round_half_even_near (x * inject_Z (10 ^ Z.of_nat 2))) as [H1 H2].
  change (inject_Z (10 ^ Z.of_nat 2)) with (100 # 1)%Q in *.
  set (n := inject_Z (round_half_even (x * (100 # 1)))) in *.
  assert (n / (100 # 1) == n * (1 # 100))%Q as -> by (unfold Qdiv; reflexivity).
  split; lra.
Qed.

(** ** The configurations above pass the platform's check *)

Example setup_start_duration :
  async_setup_platform Example.config_start_duration 0%Q
  = (Ok Example.sensor_start_duration, []).
Proof. reflexivity. Qed.

Example setup_start_end :
  async_setup_platform Example.config_start_end 0%Q
  = (Ok Example.sensor_start_end, []).
Proof. reflexivity. Qed.

Example setup_end_duration :
  async_setup_platform Example.config_end_duration 0%Q
  = (Ok Example.sensor_end_duration, []).
Proof. reflexivity. Qed.

(** The platform accepts a configuration exactly when two of the three
    slots are given. *)
Lemma async_setup_platform_two_of_three (c : config) (now : Q) :
  two_of_three c = true <->
  exists self, fst (async_setup_platform c now) = Ok self.
Proof.
  unfold two_of_three, async_setup_platform.
  destruct (conf_start c), (conf_end c), (conf_duration c); simpl;
    split; intros H; try discriminate; try reflexivity;
    try (eexists; reflexivity);
    destruct H as [self H]; discriminate.
Qed.

(** With exactly two slots configured, a configured end and a
    configured duration leave no start slot: a start that renders to 0
    does not occur together with a resolved end and duration. *)
Lemma end_and_duration_leave_no_start (c : config) (now : Q)
  (self : HistoryStatsSensor) :
  fst (async_setup_platform c now) = Ok self ->
  _end self <> None -> _duration self <> None -> _start self = None.
Proof.
  unfold async_setup_platform.
  destruct (conf_start c), (conf_end c), (conf_duration c); simpl;
    intros H He Hd; try discriminate; injection H as <-;
    first [ reflexivity
          | contradiction He; reflexivity
          | contradiction Hd; reflexivity ].
Qed.

(** ** The [try] blocks of [update_period] *)

Lemma try_render_configured (env : render_env) (k : slot) (name : string)
  (t : Template) (self : HistoryStatsSensor) :
  try_render env k name (Some t) self
  = (slot_value (env k), self, slot_effects k name (env k)).
Proof.
  unfold try_render, try_except, bind, render_floor, emit, slot_effects,
    slot_value.
  destruct (env k) as [args | | [q | neg | ]]; simpl; try reflexivity.
  destruct args as [| a0 args]; simpl; [reflexivity |].
  destruct (Str.startswith a0 _); reflexivity.
Qed.

Lemma try_render_absent (env : render_env) (k : slot) (name : string)
  (self : HistoryStatsSensor) :
  try_render env k name None self = (Raise AttributeError, self, []).
Proof. reflexivity. Qed.

(** A block renders and logs; it neither assigns the window nor calls
    the history. *)
Lemma slot_effects_quiet (k : slot) (name : string) (r : rendered) :
  existsb is_assignment (slot_effects k name r) = false
  /\ existsb is_history_call (slot_effects k name r) = false.
Proof.
  unfold slot_effects.
  destruct r as [[| a0 args] | | [q | neg | ]]; simpl; auto.
  destruct (Str.startswith a0 _); simpl; auto.
Qed.

Lemma quiet_app (f : effect -> bool) (t1 t2 : list effect) :
  existsb f t1 = false -> existsb f t2 = false ->
  existsb f (t1 ++ t2) = false.
Proof. intros H1 H2. rewrite existsb_app, H1, H2. reflexivity. Qed.

#[local] Arguments try_render : simpl never.

(** One [try] block of [update_period]: its summary replaces it, its
    effects are kept abstract with what is known of them, and the cases
    of the local variable are split. *)
Ltac step_slot :=
  match goal with
  | |- context [try_render ?env ?k ?n (Some ?t) ?s] =>
      rewrite (try_render_configured env k n t s);
      let V := fresh "V" in
      let Qa := fresh "Qa" in
      let Qh := fresh "Qh" in
      destruct (slot_effects_quiet k n (env k)) as [Qa Qh];
      generalize dependent (slot_effects k n (env k)); intros ? Qa Qh;
      destruct (slot_value (env k)) as [[?v |] | ?e] eqn:V
  | |- context [try_render ?env ?k ?n None ?s] =>
      rewrite (try_render_absent env k n s)
  end; simpl.

Ltac quiet := repeat first [ assumption | apply quiet_app | reflexivity ].

Ltac split_zero :=
  try match goal with
      | |- context [(?v =? 0)%Z] => destruct (v =? 0)%Z eqn:?; simpl
      end.

(** ** What [update_period] changes *)

Lemma with_period_same (self : HistoryStatsSensor) :
  with_period self (_period self) = self.
Proof. destruct self; reflexivity. Qed.

(** Either no branch assigns and the object is as before, or one branch
    assigns a pair of integers and the method returns. *)
Lemma update_period_frame (env : render_env) (self : HistoryStatsSensor) :
  (final (update_period env self) = self
   /\ existsb is_assignment (trace (update_period env self)) = false)
  \/ (exists a b,
        final (update_period env self) = with_period self (Some a, Some b)
        /\ In (AssignPeriod (Some a, Some b)) (trace (update_period env self))
        /\ outcome (update_period env self) = Ok tt).
Proof.
  unfold update_period, bind, get_self.
  destruct (_start self) as [ts |] eqn:Es;
  destruct (_end self) as [te |] eqn:Ee;
  destruct (_duration self) as [td |] eqn:Ed;
  simpl; repeat step_slot; split_zero;
  first
    [ left; split; [reflexivity | unfold trace; simpl; quiet]
    | right; do 2 eexists; split; [reflexivity |];
      split; [| reflexivity];
      unfold trace; simpl; rewrite ?in_app_iff; simpl; tauto ].
Qed.

(** Only the window can differ after [update_period]. *)
Lemma update_period_only_period (env : render_env)
  (self : HistoryStatsSensor) :
  final (update_period env self)
  = with_period self (_period (final (update_period env self))).
Proof.
  destruct (update_period_frame env self) as [[H _] | (a & b & H & _)];
    rewrite H.
  - symmetry. apply with_period_same.
  - reflexivity.
Qed.

(** [update_period] never calls the history. *)
Lemma update_period_no_history (env : render_env)
  (self : HistoryStatsSensor) :
  existsb is_history_call (trace (update_period env self)) = false.
Proof.
  unfold update_period, bind, get_self.
  destruct (_start self) as [ts |] eqn:Es;
  destruct (_end self) as [te |] eqn:Ee;
  destruct (_duration self) as [td |] eqn:Ed;
  simpl; repeat step_slot; split_zero;
  unfold trace; simpl; quiet.
Qed.

(** ** What [async_update] adds to [update_period] *)

(** After [update_period] the cycle assigns nothing to the window. *)
Lemma async_update_period (env : render_env) (hist : history.store)
  (now : Q) (self : HistoryStatsSensor) :
  _period (final (async_update env hist now self))
  = _period (final (update_period env self))
  /\ exists extra,
       trace (async_update env hist now self)
       = (trace (update_period env self) ++ extra)%list
       /\ existsb is_assignment extra = false.
Proof.
  unfold async_update, bind, get_self, lift.
  destruct (update_period env self) as [[r s1] t1].
  destruct r as [[] | e]; simpl.
  2: { split; [reflexivity |]. exists []. rewrite app_nil_r. auto. }
  destruct (_period s1) as [a b].
  destruct (utcfromtimestamp a) as [start | e]; simpl.
  2: { split; [reflexivity |]. exists []. auto. }
  destruct (utcfromtimestamp b) as [end_ | e]; simpl.
  2: { split; [reflexivity |]. exists []. auto. }
  destruct (Qltb now _); simpl.
  { split; [reflexivity |]. exists []. auto. }
  destruct (dict_get _ _) as [items |]; simpl.
  - split; [reflexivity |]. eexists. split; [reflexivity | reflexivity].
  - split; [reflexivity |]. eexists. split; [reflexivity | reflexivity].
Qed.

(** A cycle that reaches the loop returns, with the value computed by
    the loop and the two calls to the history after the effects of
    [update_period]. *)
Lemma async_update_accumulates (env : render_env) (hist : history.store)
  (now : Q) (self : HistoryStatsSensor) (start_ts end_ts : Z)
  (items : list history.State) :
  reaches_accumulator env hist now self start_ts end_ts items ->
  async_update env hist now self
  = (Ok tt,
     with_value (final (update_period env self))
       (round
          (elapsed_in_state (_entity_state self)
             (history.get_state hist start_ts (_entity_id self))
             start_ts items / 3600) 2),
     (trace (update_period env self)
      ++ [StateChangesDuringPeriod start_ts end_ts (_entity_id self);
          GetState start_ts (_entity_id self)])%list).
Proof.
  intros (Hok & Hp & Hs & He & Hwarm & Hitems).
  pose proof (update_period_only_period env self) as F.
  unfold async_update, bind, get_self, lift.
  destruct (update_period env self) as [[r s1] t1].
  unfold outcome, final, trace in *. simpl in *.
  subst r. rewrite Hp in F. subst s1. simpl.
  rewrite Hs, He. simpl. rewrite Hwarm. simpl.
  rewrite Hitems. simpl. reflexivity.
Qed.

(** ** The loop and the sweep *)





(** ** Window resolution *)

Lemma resolves_to_value (template : option Template) (r : rendered) (v : Z) :
  resolves_to template r v ->
  (exists t, template = Some t)
  /\ slot_value r = Ok (Some v)
  /\ forall k name, slot_effects k name r = [Render k].
Proof.
  intros [Hconf (q & Hr & Hv)]. subst r v.
  destruct template as [t |]; [| contradiction Hconf; reflexivity].
  split; [exists t; reflexivity |]. split; [reflexivity |].
  intros k name. reflexivity.
Qed.



(** C4. When the start slot is unresolved and the end and duration
    slots resolve to numbers, the window becomes
    (end - duration, end). *)
Theorem update_period_end_minus_duration (env : render_env)
  (self : HistoryStatsSensor) (e d : Z) :
  unresolved (_start self) (env CONF_START) ->
  resolves_to (_end self) (env CONF_END) e ->
  resolves_to (_duration self) (env CONF_DURATION) d ->
  outcome (update_period env self) = Ok tt
  /\ final (update_period env self)
     = with_period self (Some (e - d)%Z, Some e)
  /\ _period (final (update_period env self)) = (Some (e - d)%Z, Some e).
Proof.
  intros Hs He Hd.
  apply resolves_to_value in He. destruct He as ([te Hte] & Ve & Te).
  apply resolves_to_value in Hd. destruct Hd as ([td Htd] & Vd & Td).
  unfold unresolved in Hs.
  unfold update_period, bind, get_self.
  rewrite Hte, Htd.
  destruct (_start self) as [ts |]; simpl.
  - rewrite try_render_configured, Hs. simpl.
    rewrite try_render_configured, Ve. simpl.
    rewrite try_render_configured, Vd. simpl.
    repeat split.
  - rewrite try_render_configured, Ve. simpl.
    rewrite try_render_configured, Vd. simpl.
    repeat split.
Qed.

Lemma update_period_end_minus_duration_witness :
  _period
    (final
       (update_period
          (Example.renders NotNumeric (Example.number 1000)
             (Example.number 600))
          Example.sensor_end_duration))
  = (Some 400%Z, Some 1000%Z).
Proof.
  apply (update_period_end_minus_duration
           (Example.renders NotNumeric (Example.number 1000)
              (Example.number 600))
           Example.sensor_end_duration 1000 600).
  - exact I.
  - split; [discriminate |]. exists (inject_Z 1000). split; reflexivity.
  - split; [discriminate |]. exists (inject_Z 600). split; reflexivity.
Defined.

(** ** Where [update_period] raises *)

(** C1. With start and duration configured, a start that renders to
    1500000000 and a duration whose rendered text is not a number: the
    [ValueError] of the duration is caught and logged, and then
    [start + duration] adds [None] to an [int]; [update_period] raises
    [TypeError] to its caller instead of returning. *)
Theorem update_period_raises_on_unresolved_duration :
  update_period
    (Example.renders (Example.number 1500000000) NotNumeric NotNumeric)
    Example.sensor_start_duration
  = (Raise TypeError, Example.sensor_start_duration,
     [Render CONF_START; Render CONF_DURATION; cannot_convert "duration"]).
Proof. reflexivity. Qed.

(** The same happens on the other two paths that meet an unresolved
    slot: [end - duration] with a [None] operand, and the rendering of
    a duration slot that is not configured. *)
Example update_period_raises_on_end_minus_None :
  outcome
    (update_period
       (Example.renders NotNumeric Example.undefined (Example.number 600))
       Example.sensor_end_duration)
  = Raise TypeError.
Proof. reflexivity. Qed.

Example update_period_raises_on_absent_duration :
  outcome
    (update_period
       (Example.renders (Example.number 100) Example.undefined NotNumeric)
       Example.sensor_start_end)
  = Raise AttributeError.
Proof. reflexivity. Qed.

(** A rendering to an infinity escapes too: [math.floor] raises
    [OverflowError], which neither [except] clause catches. *)
Example update_period_raises_on_infinity :
  outcome
    (update_period
       (Example.renders (Numeric (Infinity false)) (Example.number 500)
          NotNumeric)
       Example.sensor_start_end)
  = Raise OverflowError.
Proof. reflexivity. Qed.

(** C6. Two cycles in which no branch of the resolution applies.  With
    end and duration configured, an end that renders to 1000 and a
    duration whose rendered text is not a number: the stored window is
    as before, but [end - duration] raises [TypeError] to the caller.
    With start and end configured, a start that renders to 0 and an end
    whose rendering fails: the stored window is as before, but the
    rendering of the duration slot, which is not configured, raises
    [AttributeError] to the caller.  Neither cycle is silent. *)
Theorem update_period_unresolved_not_silent :
  update_period
    (Example.renders NotNumeric (Example.number 1000) NotNumeric)
    Example.sensor_end_duration
  = (Raise TypeError, Example.sensor_end_duration,
     [Render CONF_END; Render CONF_DURATION; cannot_convert "duration"])
  /\ update_period
       (Example.renders (Example.number 0) Example.undefined NotNumeric)
       Example.sensor_start_end
     = (Raise AttributeError, Example.sensor_start_end,
        [Render CONF_START; Render CONF_END;
         LogException WARNING
           ["UndefinedError: 'None' has no attribute 'state'"]]).
Proof. split; reflexivity. Qed.

(** X4. With the duration slot configured, a start that renders to 0
    and an unresolved end leave the window as it is and return,
    whatever finite number, text or template error the duration
    renders to: the start at 0 counts as no start. *)
Lemma update_period_zero_start_keeps_window (env : render_env)
  (self : HistoryStatsSensor) :
  resolves_to (_start self) (env CONF_START) 0 ->
  unresolved (_end self) (env CONF_END) ->
  _duration self <> None ->
  (forall negative, env CONF_DURATION <> Numeric (Infinity negative)) ->
  outcome (update_period env self) = Ok tt
  /\ final (update_period env self) = self
  /\ existsb is_assignment (trace (update_period env self)) = false.
Proof.
  intros Hs He Hd Hfin.
  apply resolves_to_value in Hs. destruct Hs as ([ts Hts] & Vs & Ts).
  unfold unresolved in He.
  destruct (_duration self) as [td |] eqn:Ed; [| contradiction Hd; reflexivity].
  assert (exists d, slot_value (env CONF_DURATION) = Ok d) as [d Vd].
  { destruct (env CONF_DURATION) as [args | | [q | neg |]]; simpl;
      try (eexists; reflexivity).
    contradiction (Hfin neg). reflexivity. }
  destruct (slot_effects_quiet CONF_DURATION "duration" (env CONF_DURATION))
    as [Qd _].
  unfold update_period, bind, get_self.
  rewrite Hts, Ed. simpl.
  rewrite try_render_configured, Vs, Ts. simpl.
  destruct (_end self) as [te |]; simpl.
  - destruct (slot_effects_quiet CONF_END "end" (env CONF_END)) as [Qe _].
    rewrite try_render_configured, He. simpl.
    rewrite try_render_configured, Vd. simpl.
    repeat split. unfold trace. simpl. quiet.
  - rewrite try_render_configured, Vd. simpl.
    repeat split. unfold trace. simpl. quiet.
Qed.

(** Whenever [update_period] assigns nothing, by returning without a
    branch or by raising, the stored window is as before. *)
Lemma update_period_keeps_window (env : render_env)
  (self : HistoryStatsSensor) :
  existsb is_assignment (trace (update_period env self)) = false ->
  final (update_period env self) = self.
Proof.
  intros Hq.
  destruct (update_period_frame env self) as [[H _] | (a & b & _ & Hin & _)].
  - exact H.
  - assert (existsb is_assignment (trace (update_period env self)) = true)
      as Ht.
    { apply existsb_exists. eexists. split; [exact Hin | reflexivity]. }
    rewrite Hq in Ht. discriminate.
Qed.

(** ** The warm-up time *)

(** C2, as stated, fails: three seconds have not passed since
    construction, and the cycle has rendered both slots and replaced
    the stored window [(None, None)] by [(100, 500)]. *)
Lemma warm_up_resolves_window :
  let env := Example.renders (Example.number 100) (Example.number 500)
               NotNumeric in
  let hist := Example.history_of "binary_sensor.door" [] None in
  let self := Example.sensor_start_end in
  let r := async_update env hist (1 # 1) self in
  Qltb (1 # 1) (inject_Z WARMING_TIME + _init self)%Q = true
  /\ _period self = (None, None)
  /\ _period (final r) = (Some 100%Z, Some 500%Z)
  /\ trace r
     = [Render CONF_START; Render CONF_END;
        AssignPeriod (Some 100%Z, Some 500%Z)].
Proof. vm_compute. repeat split. Qed.

(** C2, amended.  Within the warm-up time the cycle does what
    [update_period] does and nothing more: the object and the effects
    are those of [update_period], so the slots are rendered and the
    window may be assigned, the history is not called and the reported
    value is as before; and the cycle returns when [update_period]
    returns with a window that converts to datetimes. *)
Theorem async_update_during_warm_up (env : render_env)
  (hist : history.store) (now : Q) (self : HistoryStatsSensor) :
  Qltb now (inject_Z WARMING_TIME + _init self)%Q = true ->
  final (async_update env hist now self) = final (update_period env self)
  /\ trace (async_update env hist now self) = trace (update_period env self)
  /\ existsb is_history_call (trace (async_update env hist now self)) = false
  /\ value (final (async_update env hist now self)) = value self
  /\ (forall a b,
        outcome (update_period env self) = Ok tt ->
        _period (final (update_period env self)) = (Some a, Some b) ->
        utcfromtimestamp (Some a) = Ok a ->
        utcfromtimestamp (Some b) = Ok b ->
        outcome (async_update env hist now self) = Ok tt).
Proof.
  intros Hwarm.
  pose proof (update_period_only_period env self) as F.
  pose proof (update_period_no_history env self) as Hq.
  assert (final (async_update env hist now self)
          = final (update_period env self)
          /\ trace (async_update env hist now self)
             = trace (update_period env self)
          /\ (forall a b,
                outcome (update_period env self) = Ok tt ->
                _period (final (update_period env self)) = (Some a, Some b) ->
                utcfromtimestamp (Some a) = Ok a ->
                utcfromtimestamp (Some b) = Ok b ->
                outcome (async_update env hist now self) = Ok tt))
    as (Hf & Ht & Ho).
  { unfold async_update, bind, get_self, lift.
    destruct (update_period env self) as [[r s1] t1].
    unfold outcome, final, trace in *. simpl in *.
    assert (_init s1 = _init self) as Hi by (rewrite F; reflexivity).
    destruct r as [[] | e]; simpl.
    2: { repeat split. intros; discriminate. }
    destruct (_period s1) as [a b].
    destruct (utcfromtimestamp a) as [start | e] eqn:Ua; simpl.
    2: { rewrite app_nil_r. repeat split.
         intros a' b' _ Hp Ha _. injection Hp as -> ->.
         simpl in Ua. congruence. }
    destruct (utcfromtimestamp b) as [end_ | e] eqn:Ub; simpl.
    2: { rewrite app_nil_r. repeat split.
         intros a' b' _ Hp _ Hb. injection Hp as -> ->.
         simpl in Ub. congruence. }
    rewrite Hi, Hwarm. simpl. rewrite app_nil_r. repeat split. }
  split; [exact Hf |]. split; [exact Ht |].
  split; [rewrite Ht; exact Hq |].
  split; [| exact Ho].
  rewrite Hf, F. reflexivity.
Qed.

Lemma async_update_during_warm_up_witness :
  let env := Example.renders (Example.number 100) (Example.number 500)
               NotNumeric in
  let hist := Example.history_of "binary_sensor.door" [] None in
  let self := Example.sensor_start_end in
  final (async_update env hist (1 # 1) self) = final (update_period env self)
  /\ existsb is_history_call (trace (async_update env hist (1 # 1) self))
     = false
  /\ value (final (async_update env hist (1 # 1) self)) = value self.
Proof.
  intros env hist self.
  destruct (async_update_during_warm_up env hist (1 # 1) self)
    as (Hf & _ & Hh & Hv & _).
  - reflexivity.
  - split; [exact Hf |]. split; [exact Hh | exact Hv].
Defined.

(** ** The elapsed time *)

(** The example of the spec: window (0, 3600), target "on", state "on"
    at the start, one change to "off" at 1800: 1800 seconds, reported
    as half an hour. *)
Example half_an_hour :
  elapsed_in_state "on" (Some "on") 0 [Example.change "off" 1800]
  = inject_Z 1800
  /\ (round
        (elapsed_in_state "on" (Some "on") 0 [Example.change "off" 1800]
         / 3600) 2 == 1 # 2)%Q.
Proof. split; reflexivity. Qed.



(** C7. In a cycle that reaches the loop with an empty sequence of
    events for the entity, the elapsed time is zero whatever state the
    history reports at the window start, and the cycle returns with a
    reported value of zero hours. *)
Theorem empty_history_reports_zero (env : render_env)
  (hist : history.store) (now : Q) (self : HistoryStatsSensor)
  (start_ts end_ts : Z) :
  reaches_accumulator env hist now self start_ts end_ts [] ->
  (forall first,
     elapsed_in_state (_entity_state self) first start_ts [] = 0%Q)
  /\ outcome (async_update env hist now self) = Ok tt
  /\ value (final (async_update env hist now self)) = round (0 / 3600) 2
  /\ (state (final (async_update env hist now self)) == 0)%Q.
Proof.
  intros Hreach.
  rewrite (async_update_accumulates _ _ _ _ _ _ _ Hreach).
  unfold outcome, final, state. simpl.
  repeat split.
Qed.

Lemma empty_history_reports_zero_witness :
  let env := Example.renders (Example.number 0) (Example.number 3600)
               NotNumeric in
  let hist := Example.history_of "binary_sensor.door" [] (Some "on") in
  let self := Example.sensor_start_end in
  (state (final (async_update env hist (10 # 1) self)) == 0)%Q.
Proof.
  intros env hist self.
  apply (empty_history_reports_zero env hist (10 # 1) self 0 3600).
  repeat split.
Defined.

(** C10. In a cycle that reaches the loop while the history reports no
    state at the window start, the loop starts out of the target state:
    the result does not depend on the window start, it is what the loop
    computes from the first event on with nothing elapsed, and so the
    segment from the window start to the first event adds nothing, for
    every target state. *)
Theorem no_first_state_skips_first_segment (env : render_env)
  (hist : history.store) (now : Q) (self : HistoryStatsSensor)
  (start_ts end_ts : Z) (items : list history.State) :
  reaches_accumulator env hist now self start_ts end_ts items ->
  history.get_state hist start_ts (_entity_id self) = None ->
  value (final (async_update env hist now self))
  = round (elapsed_in_state (_entity_state self) None start_ts items / 3600) 2
  /\ (forall target other_start,
        elapsed_in_state target None start_ts items
        = elapsed_in_state target None other_start items)
  /\ (forall target item rest,
        items = item :: rest ->
        elapsed_in_state target None start_ts items
        = elapsed
            (fold_left (loop_body target) rest
               {| last_state := String.eqb (history.state item) target;
                  last_time := history.last_changed item;
                  elapsed := 0%Q |})).
Proof.
  intros Hreach Hnone.
  split.
  { rewrite (async_update_accumulates _ _ _ _ _ _ _ Hreach), Hnone.
    reflexivity. }
  split.
  - intros target other_start. unfold elapsed_in_state.
    destruct items as [| item rest]; reflexivity.
  - intros target item rest ->. reflexivity.
Qed.

Lemma no_first_state_skips_first_segment_witness :
  let env := Example.renders (Example.number 0) (Example.number 3600)
               NotNumeric in
  let items := [Example.change "on" 600; Example.change "off" 1800] in
  let hist := Example.history_of "binary_sensor.door" items None in
  let self := Example.sensor_start_end in
  value (final (async_update env hist (10 # 1) self))
  = round (elapsed_in_state "on" None 0 items / 3600) 2
  /\ elapsed_in_state "on" None 0 items
     = elapsed
         (fold_left (loop_body "on") [Example.change "off" 1800]
            {| last_state := true;
               last_time := inject_Z 600;
               elapsed := 0%Q |}).
Proof.
  intros env items hist self.
  destruct (no_first_state_skips_first_segment env hist (10 # 1) self 0 3600
              items)
    as (Hvalue & _ & Hfirst).
  - repeat split.
  - reflexivity.
  - split; [exact Hvalue |].
    apply (Hfirst "on" (Example.change "on" 600)
             [Example.change "off" 1800]).
    reflexivity.
Defined.

(** ** The expansion of time aliases *)

(** C8. [parse_time_expr] turns "_TODAY_" into the printed form of one
    [as_timestamp] around a chain of replacements on [now()].  The
    chain sets the second, the minute and the hour to 0, in this order,
    and no other field; it is equivalent to the chain of the
    expression that the spec names, which lists the same replacements
    as hour, minute, second; and the text holds one [as_timestamp]. *)
Theorem parse_time_expr_today :
  parse_time_expr "_TODAY_"
  = TimeExpr.show (TimeExpr.as_timestamp TimeExpr.today_expanded)
  /\ parse_time_expr "_TODAY_"
     = "as_timestamp(now().replace(second=0).replace(minute=0).replace(hour=0))"
  /\ TimeExpr.show (TimeExpr.as_timestamp TimeExpr.today_spec)
     = "as_timestamp(now().replace(hour=0).replace(minute=0).replace(second=0))"
  /\ TimeExpr.equivalent TimeExpr.today_expanded TimeExpr.today_spec
  /\ (forall field,
        TimeExpr.override TimeExpr.today_expanded field
        = if String.eqb field "hour" || String.eqb field "minute"
             || String.eqb field "second"
          then Some 0%nat else None)
  /\ Str.occurrences "as_timestamp(" (parse_time_expr "_TODAY_") = 1%nat.
Proof.
  split; [reflexivity |]. split; [reflexivity |]. split; [reflexivity |].
  split; [| split; [| reflexivity]].
  - intros field. simpl.
    destruct (String.eqb field "hour"), (String.eqb field "minute"),
      (String.eqb field "second"); reflexivity.
  - intros field. simpl.
    destruct (String.eqb field "hour"), (String.eqb field "minute"),
      (String.eqb field "second"); reflexivity.
Qed.

(** ** The window before its first assignment *)

Lemma run_cycles_unassigned (cycles : list cycle) :
  forall self : HistoryStatsSensor,
    existsb is_assignment (snd (run_cycles self cycles)) = false ->
    _period (fst (run_cycles self cycles)) = _period self.
Proof.
  induction cycles as [| c rest IH]; intros self Hq; simpl in *.
  - reflexivity.
  - destruct (async_update_period (cycle_env c) (cycle_history c)
                (cycle_now c) self) as (Hp & extra & Ht & _).
    destruct (run_cycles
                (final (async_update (cycle_env c) (cycle_history c)
                          (cycle_now c) self)) rest)
      as [self' t'] eqn:R.
    simpl in *.
    rewrite existsb_app in Hq. apply orb_false_iff in Hq.
    destruct Hq as [Hq1 Hq2].
    specialize (IH (final (async_update (cycle_env c) (cycle_history c)
                             (cycle_now c) self))).
    rewrite R in IH. simpl in IH. rewrite (IH Hq2), Hp.
    rewrite Ht, existsb_app in Hq1. apply orb_false_iff in Hq1.
    rewrite (update_period_keeps_window _ _ (proj1 Hq1)). reflexivity.
Qed.

(** C9. From construction on, as long as no cycle has assigned the
    window, the stored window is (None, None) and [state_attributes]
    raises [TypeError], the conversion of the timestamp being applied
    to [None], whatever the local formatting of timestamps is. *)
Theorem unassigned_window_is_None (entity_id entity_state : string)
  (start end_ duration : option Template) (name : string) (now : Q)
  (cycles : list cycle) (local_format : Z -> result string) :
  let self := __init__ entity_id entity_state start end_ duration name now in
  existsb is_assignment (snd (run_cycles self cycles)) = false ->
  _period (fst (run_cycles self cycles)) = (None, None)
  /\ state_attributes local_format (fst (run_cycles self cycles))
     = Raise TypeError.
Proof.
  intros self Hq.
  assert (_period (fst (run_cycles self cycles)) = (None, None)) as Hp.
  { rewrite (run_cycles_unassigned cycles self Hq). reflexivity. }
  split; [exact Hp |].
  unfold state_attributes. rewrite Hp. reflexivity.
Qed.

Lemma unassigned_window_is_None_witness :
  let cycles :=
    [ {| cycle_env := Example.renders Example.undefined Example.undefined
                        NotNumeric;
         cycle_history := Example.history_of "binary_sensor.door" [] None;
         cycle_now := 1 # 1 |};
      {| cycle_env := Example.renders (Example.number 0) Example.undefined
                        NotNumeric;
         cycle_history := Example.history_of "binary_sensor.door" [] None;
         cycle_now := 30 # 1 |} ] in
  state_attributes (fun _ => Ok "1970-01-01 00:00:00")
    (fst (run_cycles Example.sensor_start_end cycles))
  = Raise TypeError.
Proof.
  intros cycles.
  apply (unassigned_window_is_None "binary_sensor.door" "on"
           (Some "{{ states.input_number.from.state }}")
           (Some "{{ as_timestamp(now()) }}") None DEFAULT_NAME 0%Q
           cycles (fun _ => Ok "1970-01-01 00:00:00")).
  reflexivity.
Defined.

(** * Further properties *)

(** ** The platform's check of the configuration *)

(** X1. The platform builds the sensor exactly when two of the three
    slots are given, with every given template passed through
    [parse_time_expr], an empty window and the value 0; with fewer or
    with three it logs one error, the first message below two and the
    second at three, and raises [TypeError]. *)
Theorem async_setup_platform_counts (c : config) (now : Q) :
  async_setup_platform c now
  = if (given c =? 2)%nat
    then (Ok (__init__ (conf_entity_id c) (conf_state c)
                (option_map parse_time_expr (conf_start c))
                (option_map parse_time_expr (conf_end c))
                (option_map parse_time_expr (conf_duration c))
                (conf_name c) now), [])
    else (Raise TypeError,
          [LogText ERROR
             (if (given c <? 2)%nat
              then "You must provide 2 of the following : start, end, duration"
              else "You have to pick exactly 2 of the following: start, end, duration")]).
Proof.
  unfold given, async_setup_platform.
  destruct (conf_start c), (conf_end c), (conf_duration c); reflexivity.
Qed.

(** The sensor that the platform builds has two slots. *)
Lemma setup_configures_two (c : config) (now : Q)
  (self : HistoryStatsSensor) :
  fst (async_setup_platform c now) = Ok self -> configured_slots self = 2%nat.
Proof.
  unfold async_setup_platform.
  destruct (conf_start c), (conf_end c), (conf_duration c); simpl;
    intros H; try discriminate; injection H as <-; reflexivity.
Qed.

(** ** More on the effects of one [try] block *)

Lemma renders_of_app (t1 t2 : list effect) :
  renders_of (t1 ++ t2) = (renders_of t1 ++ renders_of t2)%list.
Proof.
  induction t1 as [| e t1 IH]; simpl; [reflexivity |].
  destruct e; simpl; rewrite IH; reflexivity.
Qed.

Lemma slot_effects_render (k : slot) (name : string) (r : rendered) :
  renders_of (slot_effects k name r) = [k]
  /\ (List.length (filter is_log (slot_effects k name r)) <= 1)%nat.
Proof.
  unfold slot_effects.
  destruct r as [[| a0 args] | | [q | neg | ]]; simpl; auto.
  destruct (Str.startswith a0 _); simpl; auto.
Qed.

Lemma quiet_not_in (t : list effect) (p : option Z * option Z) :
  existsb is_assignment t = false -> ~ In (AssignPeriod p) t.
Proof.
  intros Hq Hin.
  assert (existsb is_assignment t = true) as Ht.
  { apply existsb_exists. eexists. split; [exact Hin | reflexivity]. }
  rewrite Hq in Ht. discriminate.
Qed.

(** Runs of [update_period] on one or several objects in one goal: the
    effects of the three blocks are named first, with what is known of
    them, so that every run uses the same ones; then each block is
    replaced by its summary and the cases of its value are split. *)
Ltac name_slots env :=
  destruct (slot_effects_quiet CONF_START "start" (env CONF_START))
    as [?Qa ?Qh];
  destruct (slot_effects_quiet CONF_END "end" (env CONF_END))
    as [?Qa ?Qh];
  destruct (slot_effects_quiet CONF_DURATION "duration" (env CONF_DURATION))
    as [?Qa ?Qh];
  destruct (slot_effects_render CONF_START "start" (env CONF_START))
    as [?Rr ?Rl];
  destruct (slot_effects_render CONF_END "end" (env CONF_END))
    as [?Rr ?Rl];
  destruct (slot_effects_render CONF_DURATION "duration" (env CONF_DURATION))
    as [?Rr ?Rl];
  remember (slot_effects CONF_START "start" (env CONF_START)) as ls eqn:?Ls;
  remember (slot_effects CONF_END "end" (env CONF_END)) as le eqn:?Le;
  remember (slot_effects CONF_DURATION "duration" (env CONF_DURATION))
    as ld eqn:?Ld.

Ltac run_slots :=
  repeat
    (match goal with
     | |- context [try_render ?env ?k ?n (Some ?t) ?s] =>
         rewrite (try_render_configured env k n t s)
     | |- context [try_render ?env ?k ?n None ?s] =>
         rewrite (try_render_absent env k n s)
     end;
     try match goal with
         | H : slot_value ?r = _ |- context [slot_value ?r] => rewrite H
         | |- context [slot_value ?r] =>
             destruct (slot_value r) as [[?v |] | ?e] eqn:?V
         end;
     repeat match goal with
            | H : ?l = slot_effects _ _ _ |- _ => rewrite <- H
            end;
     simpl).

Ltac split_templates self :=
  destruct (_start self) as [?ts |] eqn:?Es;
  destruct (_end self) as [?te |] eqn:?Ee;
  destruct (_duration self) as [?td |] eqn:?Ed.

(** ** [update_period] and the object *)

(** The outcome, the effects and the assignment of [update_period]
    depend on the object through its three templates only. *)
Lemma update_period_same_templates (env : render_env)
  (self self' : HistoryStatsSensor) :
  _start self = _start self' ->
  _end self = _end self' ->
  _duration self = _duration self' ->
  outcome (update_period env self) = outcome (update_period env self')
  /\ trace (update_period env self) = trace (update_period env self')
  /\ ((final (update_period env self) = self
       /\ final (update_period env self') = self'
       /\ existsb is_assignment (trace (update_period env self)) = false)
      \/ exists p,
           final (update_period env self) = with_period self p
           /\ final (update_period env self') = with_period self' p
           /\ is_whole p = true
           /\ outcome (update_period env self) = Ok tt).
Proof.
  intros Hs He Hd.
  unfold update_period, bind, get_self.
  rewrite <- Hs, <- He, <- Hd.
  name_slots env. split_templates self.
  all: simpl; run_slots; split_zero;
    (split; [reflexivity |]); (split; [reflexivity |]);
    first [ left; split; [reflexivity |]; split; [reflexivity |];
            unfold trace; simpl; quiet
          | right; eexists; repeat split ].
Qed.

(** X6. [update_period] reads the three templates of the object and
    nothing else: on two objects with the same templates, whatever
    their stored windows and values, it has the same outcome and the
    same effects, and a window that it assigns is the same. *)
Theorem update_period_ignores_stored_state (env : render_env)
  (self self' : HistoryStatsSensor) :
  _start self = _start self' ->
  _end self = _end self' ->
  _duration self = _duration self' ->
  outcome (update_period env self) = outcome (update_period env self')
  /\ trace (update_period env self) = trace (update_period env self')
  /\ (existsb is_assignment (trace (update_period env self)) = true ->
      _period (final (update_period env self))
      = _period (final (update_period env self'))).
Proof.
  intros Hs He Hd.
  destruct (update_period_same_templates env self self' Hs He Hd)
    as (Ho & Ht & [(_ & _ & Hq) | (p & Hf & Hf' & _)]).
  - repeat split; try assumption. intros Ha. rewrite Hq in Ha. discriminate.
  - repeat split; try assumption. intros _. rewrite Hf, Hf'. reflexivity.
Qed.

(** X5. [update_period] changes nothing of the object but the stored
    window and never calls the history; when it assigns nothing, also
    when it raises, the object is as before; and what it assigns is a
    pair of integers, is the stored window afterwards, and is followed
    by a normal return. *)
Theorem update_period_touches_only_window (env : render_env)
  (self : HistoryStatsSensor) :
  final (update_period env self)
  = with_period self (_period (final (update_period env self)))
  /\ existsb is_history_call (trace (update_period env self)) = false
  /\ (existsb is_assignment (trace (update_period env self)) = false ->
      final (update_period env self) = self)
  /\ (forall p,
        In (AssignPeriod p) (trace (update_period env self)) ->
        is_whole p = true
        /\ _period (final (update_period env self)) = p
        /\ outcome (update_period env self) = Ok tt).
Proof.
  split; [apply update_period_only_period |].
  split; [apply update_period_no_history |].
  split; [apply update_period_keeps_window |].
  unfold update_period, bind, get_self.
  name_slots env. split_templates self.
  all: simpl; run_slots; split_zero; unfold trace, final, outcome; simpl;
    intros p Hin; rewrite ?in_app_iff in Hin; simpl in Hin;
    repeat match goal with
           | H : _ \/ _ |- _ => destruct H
           | H : False |- _ => contradiction H
           | H : In (AssignPeriod _) ?l, Q : existsb is_assignment ?l = false
             |- _ => contradiction (quiet_not_in l _ Q H)
           | H : AssignPeriod _ = AssignPeriod _ |- _ => injection H as <-
           end;
    try discriminate; repeat split.
Qed.

(** X7. In one cycle [update_period] renders each slot at most once,
    in the order start, end, duration; the start slot is rendered
    exactly when it is configured, no slot that is not configured is
    rendered, and there are at most as many log records as
    renderings. *)
Theorem update_period_renders_in_order (env : render_env)
  (self : HistoryStatsSensor) :
  exists rendered_end rendered_duration : bool,
    renders_of (trace (update_period env self))
    = ((if configured self CONF_START then [CONF_START] else [])
       ++ (if rendered_end then [CONF_END] else [])
       ++ (if rendered_duration then [CONF_DURATION] else []))%list
    /\ (rendered_end = true -> configured self CONF_END = true)
    /\ (rendered_duration = true -> configured self CONF_DURATION = true)
    /\ (List.length (filter is_log (trace (update_period env self)))
        <= List.length (renders_of (trace (update_period env self))))%nat.
Proof.
  unfold configured, slot_template, update_period, bind, get_self.
  name_slots env. split_templates self.
  all: simpl; run_slots; split_zero; unfold trace; simpl;
    rewrite ?renders_of_app, ?filter_app, ?length_app; simpl;
    repeat match goal with
           | H : renders_of ?l = _ |- context [renders_of ?l] => rewrite H
           end; simpl.
  all: first
    [ exists true, true; repeat split; simpl; lia
    | exists true, false; repeat split; simpl; try discriminate; lia
    | exists false, true; repeat split; simpl; try discriminate; lia
    | exists false, false; repeat split; simpl; try discriminate; lia ].
Qed.

Lemma update_period_ignores_stored_state_witness :
  let env := Example.renders (Example.number 100) (Example.number 500)
               NotNumeric in
  let self' :=
    with_value (with_period Example.sensor_start_end (Some 1%Z, Some 2%Z))
      (7 # 2) in
  trace (update_period env Example.sensor_start_end)
  = trace (update_period env self').
Proof.
  intros env self'.
  apply (update_period_ignores_stored_state env Example.sensor_start_end
           self'); reflexivity.
Defined.

(** X8. A template error in the block of a configured slot never
    leaves the block: the slot stays [None], the object is unchanged,
    and [handle_template_exception] writes one log record, a warning
    when the first argument of the exception begins with the
    "UndefinedError: 'None' has no attribute" text and an error
    otherwise, also when the exception has no argument. *)
Theorem template_error_is_logged_once (env : render_env) (k : slot)
  (name : string) (t : Template) (self : HistoryStatsSensor)
  (args : list string) :
  env k = RenderFails args ->
  try_render env k name (Some t) self
  = (Ok None, self,
     [Render k;
      LogException
        (match args with
         | a0 :: _ =>
             if Str.startswith a0 "UndefinedError: 'None' has no attribute"
             then WARNING else ERROR
         | [] => ERROR
         end) args]).
Proof.
  intros H. rewrite try_render_configured, H.
  unfold slot_value, slot_effects.
  destruct args as [| a0 args]; [reflexivity |].
  destruct (Str.startswith a0 _); reflexivity.
Qed.

Lemma template_error_is_logged_once_witness :
  try_render
    (Example.renders Example.undefined NotNumeric NotNumeric)
    CONF_START "start" (Some "{{ states.sensor.x.state }}")
    Example.sensor_start_end
  = (Ok None, Example.sensor_start_end,
     [Render CONF_START;
      LogException WARNING
        ["UndefinedError: 'None' has no attribute 'state'"]]).
Proof.
  apply (template_error_is_logged_once
           (Example.renders Example.undefined NotNumeric NotNumeric)
           CONF_START "start" "{{ states.sensor.x.state }}"
           Example.sensor_start_end
           ["UndefinedError: 'None' has no attribute 'state'"]).
  reflexivity.
Defined.





(** ** The second branch of the resolution *)



Lemma update_period_zero_start_keeps_window_witness :
  final
    (update_period
       (Example.renders (Example.number 0) NotNumeric (Example.number 3600))
       Example.sensor_start_duration)
  = Example.sensor_start_duration.
Proof.
  apply (update_period_zero_start_keeps_window
           (Example.renders (Example.number 0) NotNumeric
              (Example.number 3600))
           Example.sensor_start_duration).
  - split; [discriminate |]. exists (inject_Z 0). split; reflexivity.
  - exact I.
  - discriminate.
  - discriminate.
Defined.

(** ** The update cycle after the window resolution *)

(** The cycle after [update_period], for a window that converts: the
    warm-up test, the lookup of the entity and the loop. *)
Lemma async_update_converted (env : render_env) (hist : history.store)
  (now : Q) (self : HistoryStatsSensor) (a b : Z) :
  outcome (update_period env self) = Ok tt ->
  _period (final (update_period env self)) = (Some a, Some b) ->
  utcfromtimestamp (Some a) = Ok a ->
  utcfromtimestamp (Some b) = Ok b ->
  async_update env hist now self
  = if Qltb now (inject_Z WARMING_TIME + _init self)%Q
    then (Ok tt, final (update_period env self),
          trace (update_period env self))
    else
      match dict_get
              (history.state_changes_during_period hist a b (_entity_id self))
              (_entity_id self) with
      | None =>
          (Ok tt, final (update_period env self),
           (trace (update_period env self)
            ++ [StateChangesDuringPeriod a b (_entity_id self)])%list)
      | Some items =>
          (Ok tt,
           with_value (final (update_period env self))
             (round
                (elapsed_in_state (_entity_state self)
                   (history.get_state hist a (_entity_id self)) a items
                 / 3600) 2),
           (trace (update_period env self)
            ++ [StateChangesDuringPeriod a b (_entity_id self);
                GetState a (_entity_id self)])%list)
      end.
Proof.
  intros Hok Hp Ha Hb.
  pose proof (update_period_only_period env self) as F.
  unfold async_update, bind, get_self, lift.
  destruct (update_period env self) as [[r s1] t1].
  unfold outcome, final, trace in *. simpl in *.
  subst r. rewrite Hp in F. subst s1. simpl.
  rewrite Ha, Hb. simpl.
  destruct (Qltb now _); simpl; [rewrite app_nil_r; reflexivity |].
  destruct (dict_get _ _); simpl; reflexivity.
Qed.

(** The cycle for a window that does not convert, or when
    [update_period] raises. *)
Lemma async_update_stops (env : render_env) (hist : history.store)
  (now : Q) (self : HistoryStatsSensor) :
  (forall e, outcome (update_period env self) = Raise e ->
             async_update env hist now self
             = (Raise e, final (update_period env self),
                trace (update_period env self)))
  /\ (forall e,
        outcome (update_period env self) = Ok tt ->
        (utcfromtimestamp (fst (_period (final (update_period env self))))
         = Raise e
         \/ (exists a,
               utcfromtimestamp
                 (fst (_period (final (update_period env self)))) = Ok a
               /\ utcfromtimestamp
                    (snd (_period (final (update_period env self))))
                  = Raise e)) ->
        async_update env hist now self
        = (Raise e, final (update_period env self),
           trace (update_period env self))).
Proof.
  unfold async_update, bind, get_self, lift.
  destruct (update_period env self) as [[r s1] t1].
  unfold outcome, final, trace. simpl.
  split.
  - intros e ->. reflexivity.
  - intros e -> H. destruct (_period s1) as [a b]. simpl in H.
    destruct H as [H | (a' & H & H')].
    + rewrite H. simpl. rewrite app_nil_r. reflexivity.
    + rewrite H. simpl. rewrite H'. simpl. rewrite app_nil_r. reflexivity.
Qed.

Lemma utcfromtimestamp_Ok (t : option Z) (x : datetime) :
  utcfromtimestamp t = Ok x -> t = Some x.
Proof.
  destruct t as [v |]; simpl; [| discriminate].
  destruct (_ || _); [discriminate |].
  destruct (_ || _); [discriminate |].
  intros H. injection H as ->. reflexivity.
Qed.

Lemma conversion_raises_not_Ok (p : option Z * option Z) (e : exn)
  (a b : Z) :
  conversion_raises p e -> p = (Some a, Some b) ->
  utcfromtimestamp (Some a) = Ok a -> utcfromtimestamp (Some b) = Ok b ->
  False.
Proof.
  intros [H | (a' & _ & H)] -> Ha Hb; cbn [fst snd] in H; congruence.
Qed.

Lemma conversion_raises_one (p : option Z * option Z) (e e' : exn) :
  conversion_raises p e -> conversion_raises p e' -> e = e'.
Proof.
  intros [H | (a & Ha & H)] [H' | (a' & Ha' & H')]; congruence.
Qed.

(** The three ways a cycle goes on after [update_period]. *)
Lemma async_update_cases (env : render_env) (hist : history.store)
  (now : Q) (self : HistoryStatsSensor) :
  (exists e,
     async_update env hist now self
     = (Raise e, final (update_period env self),
        trace (update_period env self))
     /\ (outcome (update_period env self) = Raise e
         \/ (outcome (update_period env self) = Ok tt
             /\ conversion_raises
                  (_period (final (update_period env self))) e)))
  \/ (exists a b,
        outcome (update_period env self) = Ok tt
        /\ _period (final (update_period env self)) = (Some a, Some b)
        /\ utcfromtimestamp (Some a) = Ok a
        /\ utcfromtimestamp (Some b) = Ok b).
Proof.
  destruct (async_update_stops env hist now self) as [Hraise Hconv].
  destruct (outcome (update_period env self)) as [[] | e] eqn:Ho.
  2: { left. exists e. split; [apply Hraise; reflexivity | left; reflexivity]. }
  destruct (_period (final (update_period env self))) as [pa pb] eqn:Hp.
  unfold conversion_raises. simpl in *.
  destruct (utcfromtimestamp pa) as [a | e] eqn:Ua.
  2: { left. exists e. split; [apply Hconv; auto |].
       right. split; [reflexivity |]. left. reflexivity. }
  destruct (utcfromtimestamp pb) as [b | e] eqn:Ub.
  2: { left. exists e. split; [apply Hconv; eauto |].
       right. split; [reflexivity |]. right. exists a. split; reflexivity. }
  right. exists a, b.
  pose proof (utcfromtimestamp_Ok _ _ Ua).
  pose proof (utcfromtimestamp_Ok _ _ Ub).
  subst pa pb. repeat split; assumption.
Qed.

Lemma no_history_no_get_state (t : list effect) :
  existsb is_history_call t = false -> existsb is_get_state t = false.
Proof.
  induction t as [| e t IH]; simpl; [reflexivity |].
  intros H. apply orb_false_iff in H. destruct H as [He Ht].
  rewrite (IH Ht). destruct e; simpl in *; try reflexivity; discriminate.
Qed.

Lemma existsb_snoc {A : Type} (f : A -> bool) (l : list A) (x : A) :
  existsb f (l ++ [x]) = existsb f l || f x.
Proof. rewrite existsb_app. simpl. rewrite orb_false_r. reflexivity. Qed.

(** X9. In a cycle after the warm-up whose window converts, when the
    history holds no entry for the entity: the cycle returns after the
    one call of [state_changes_during_period], the state at the start
    is not asked for, and the reported value is as before. *)
Theorem async_update_entity_missing (env : render_env)
  (hist : history.store) (now : Q) (self : HistoryStatsSensor) (a b : Z) :
  outcome (update_period env self) = Ok tt ->
  _period (final (update_period env self)) = (Some a, Some b) ->
  utcfromtimestamp (Some a) = Ok a ->
  utcfromtimestamp (Some b) = Ok b ->
  Qltb now (inject_Z WARMING_TIME + _init self)%Q = false ->
  dict_get (history.state_changes_during_period hist a b (_entity_id self))
    (_entity_id self) = None ->
  async_update env hist now self
  = (Ok tt, final (update_period env self),
     (trace (update_period env self)
      ++ [StateChangesDuringPeriod a b (_entity_id self)])%list)
  /\ value (final (async_update env hist now self)) = value self
  /\ existsb is_get_state (trace (async_update env hist now self)) = false.
Proof.
  intros Hok Hp Ha Hb Hwarm Hmiss.
  rewrite (async_update_converted env hist now self a b Hok Hp Ha Hb).
  rewrite Hwarm, Hmiss.
  split; [reflexivity |]. split.
  - unfold final at 1. simpl.
    rewrite (update_period_only_period env self). reflexivity.
  - unfold trace at 1. simpl. rewrite existsb_snoc. simpl.
    rewrite orb_false_r. apply no_history_no_get_state.
    apply update_period_no_history.
Qed.

Lemma async_update_entity_missing_witness :
  let env := Example.renders (Example.number 0) (Example.number 3600)
               NotNumeric in
  let hist := Example.history_of "binary_sensor.window"
                [Example.change "on" 600] (Some "on") in
  value (final (async_update env hist (10 # 1) Example.sensor_start_end))
  = value Example.sensor_start_end.
Proof.
  intros env hist.
  apply (async_update_entity_missing env hist (10 # 1)
           Example.sensor_start_end 0 3600); reflexivity.
Defined.

(** X10. When [update_period] returns and the start of the stored
    window is still [None], the cycle raises [TypeError] at the
    conversion of the window, before the warm-up test, whatever the
    time is: the history is not called and the value is as before. *)
Theorem async_update_without_window (env : render_env)
  (hist : history.store) (now : Q) (self : HistoryStatsSensor) :
  outcome (update_period env self) = Ok tt ->
  fst (_period (final (update_period env self))) = None ->
  async_update env hist now self
  = (Raise TypeError, final (update_period env self),
     trace (update_period env self))
  /\ existsb is_history_call (trace (async_update env hist now self)) = false
  /\ value (final (async_update env hist now self)) = value self.
Proof.
  intros Hok Hnone.
  destruct (async_update_stops env hist now self) as [_ Hconv].
  rewrite (Hconv TypeError Hok).
  2: { left. rewrite Hnone. reflexivity. }
  split; [reflexivity |]. split.
  - apply update_period_no_history.
  - unfold final at 1. simpl.
    rewrite (update_period_only_period env self). reflexivity.
Qed.

Lemma async_update_without_window_witness :
  let env := Example.renders (Example.number 0) NotNumeric
               (Example.number 3600) in
  let hist := Example.history_of "binary_sensor.door" [] None in
  outcome (async_update env hist (10 # 1) Example.sensor_start_duration)
  = Raise TypeError.
Proof.
  intros env hist.
  destruct (async_update_without_window env hist (10 # 1)
              Example.sensor_start_duration) as (H & _).
  - reflexivity.
  - reflexivity.
  - rewrite H. reflexivity.
Defined.

(** X11. A cycle calls the history exactly when [update_period]
    returns, the stored window is a pair of integers that both
    convert to datetimes, and at least [WARMING_TIME] seconds have
    passed since construction, the third second included. *)
Theorem history_called_iff (env : render_env) (hist : history.store)
  (now : Q) (self : HistoryStatsSensor) :
  existsb is_history_call (trace (async_update env hist now self)) = true
  <-> (outcome (update_period env self) = Ok tt
       /\ (exists a b,
             _period (final (update_period env self)) = (Some a, Some b)
             /\ utcfromtimestamp (Some a) = Ok a
             /\ utcfromtimestamp (Some b) = Ok b)
       /\ (inject_Z WARMING_TIME + _init self <= now)%Q).
Proof.
  pose proof (update_period_no_history env self) as Hq.
  destruct (async_update_cases env hist now self)
    as [(e & Hrun & Hwhy) | (a & b & Hok & Hp & Ha & Hb)].
  - rewrite Hrun. unfold trace at 1. simpl. rewrite Hq. split.
    + discriminate.
    + intros (Hok & (a & b & Hp & Ha & Hb) & _).
      destruct Hwhy as [Hr | [_ Hno]]; [congruence |].
      exfalso. exact (conversion_raises_not_Ok _ _ a b Hno Hp Ha Hb).
  - rewrite (async_update_converted env hist now self a b Hok Hp Ha Hb).
    destruct (Qltb now _) eqn:Hwarm.
    + unfold trace at 1. simpl. rewrite Hq. split; [discriminate |].
      intros (_ & _ & Hle). apply Qltb_lt in Hwarm. lra.
    + assert (inject_Z WARMING_TIME + _init self <= now)%Q as Hle.
      { destruct (Qlt_le_dec now (inject_Z WARMING_TIME + _init self))
          as [Hlt | Hle]; [| exact Hle].
        apply Qltb_lt in Hlt. congruence. }
      destruct (dict_get _ _); unfold trace at 1; simpl;
        rewrite existsb_app; simpl; rewrite orb_true_r;
        (split; [intros _ | reflexivity]);
        (split; [exact Hok |]); (split; [| exact Hle]);
        exists a, b; auto.
Qed.

(** X12. The reported value is as before after every cycle that
    raises and after every cycle that does not ask the history for the
    state at the window start. *)
Theorem async_update_keeps_value (env : render_env) (hist : history.store)
  (now : Q) (self : HistoryStatsSensor) :
  (forall e,
     outcome (async_update env hist now self) = Raise e ->
     value (final (async_update env hist now self)) = value self)
  /\ (existsb is_get_state (trace (async_update env hist now self)) = false ->
      value (final (async_update env hist now self)) = value self).
Proof.
  assert (value (final (update_period env self)) = value self) as Hv.
  { rewrite (update_period_only_period env self). reflexivity. }
  destruct (async_update_cases env hist now self)
    as [(e & Hrun & _) | (a & b & Hok & Hp & Ha & Hb)].
  - rewrite Hrun. unfold final at 1 3. simpl. auto.
  - rewrite (async_update_converted env hist now self a b Hok Hp Ha Hb).
    destruct (Qltb now _); [unfold final at 1 3; simpl; auto |].
    destruct (dict_get _ _); unfold final at 1 3, outcome, trace; simpl.
    + split; [discriminate |]. rewrite existsb_app. simpl.
      rewrite orb_true_r. discriminate.
    + auto.
Qed.

(** ** The object across cycles *)

(** After one cycle the object differs from the one before at most in
    the window and the value, and a new window is a pair of integers. *)
Lemma async_update_shape (env : render_env) (hist : history.store)
  (now : Q) (self : HistoryStatsSensor) :
  exists p v,
    final (async_update env hist now self)
    = with_value (with_period self p) v
    /\ (p = _period self \/ is_whole p = true).
Proof.
  assert (exists p,
            final (update_period env self) = with_period self p
            /\ (p = _period self \/ is_whole p = true)) as (p & Hf & Hp).
  { destruct (update_period_same_templates env self self eq_refl eq_refl
                eq_refl) as (_ & _ & [(Hf & _) | (p & Hf & _ & Hw & _)]).
    - exists (_period self). rewrite Hf, with_period_same. auto.
    - exists p. auto. }
  assert (forall s, with_value s (value s) = s) as Hsame
    by (intros []; reflexivity).
  destruct (async_update_cases env hist now self)
    as [(e & Hrun & _) | (a & b & Hok & Hab & Ha & Hb)].
  - rewrite Hrun. unfold final at 1. simpl. rewrite Hf.
    exists p, (value self). split; [| exact Hp].
    symmetry. apply (Hsame (with_period self p)).
  - rewrite (async_update_converted env hist now self a b Hok Hab Ha Hb).
    destruct (Qltb now _).
    { unfold final at 1. simpl. rewrite Hf.
      exists p, (value self). split; [| exact Hp].
      symmetry. apply (Hsame (with_period self p)). }
    destruct (dict_get _ _); unfold final at 1; simpl; rewrite Hf.
    + eexists p, _. split; [reflexivity | exact Hp].
    + exists p, (value self). split; [| exact Hp].
      symmetry. apply (Hsame (with_period self p)).
Qed.

(** Over any number of cycles: the configuration and the time of
    construction stay, and the window is the one before or a pair of
    integers. *)
Lemma run_cycles_frame (self : HistoryStatsSensor)
  (cycles : list cycle) :
  let self' := fst (run_cycles self cycles) in
  _entity_id self' = _entity_id self
  /\ _entity_state self' = _entity_state self
  /\ _start self' = _start self
  /\ _end self' = _end self
  /\ _duration self' = _duration self
  /\ _init self' = _init self
  /\ (_period self' = _period self \/ is_whole (_period self') = true)
  /\ (is_whole (_period self) = true -> is_whole (_period self') = true).
Proof.
  revert self. induction cycles as [| c rest IH]; intros self; simpl.
  - repeat split; auto.
  - destruct (async_update_shape (cycle_env c) (cycle_history c)
                (cycle_now c) self) as (p & v & Hf & Hp).
    specialize (IH (final (async_update (cycle_env c) (cycle_history c)
                             (cycle_now c) self))).
    destruct (run_cycles _ rest) as [self' t']. simpl in *.
    rewrite Hf in IH. simpl in IH.
    destruct IH as (H1 & H2 & H3 & H4 & H5 & H6 & H7 & H8).
    repeat split; try assumption.
    + destruct H7 as [H7 | H7]; [| auto].
      rewrite H7. destruct Hp as [-> | Hp]; auto.
    + intros Hw. apply H8. destruct Hp as [-> | Hp]; auto.
Qed.

(** X13. Over any number of cycles, whatever their outcomes, the
    entity, the target state, the three templates and the time of
    construction of the object stay as they are, and a stored window
    of two integers stays a window of two integers. *)
Theorem run_cycles_keep_configuration (self : HistoryStatsSensor)
  (cycles : list cycle) :
  let self' := fst (run_cycles self cycles) in
  (_entity_id self', _entity_state self', _init self')
  = (_entity_id self, _entity_state self, _init self)
  /\ (_start self', _end self', _duration self')
     = (_start self, _end self, _duration self)
  /\ (is_whole (_period self) = true -> is_whole (_period self') = true).
Proof.
  intros self'.
  destruct (run_cycles_frame self cycles)
    as (H1 & H2 & H3 & H4 & H5 & H6 & _ & H8).
  fold self' in H1, H2, H3, H4, H5, H6, H8.
  rewrite H1, H2, H3, H4, H5, H6. auto.
Qed.

(** X14. At any time after construction the stored window is either
    (None, None), and [state_attributes] raises [TypeError], or a pair
    of integers, and [state_attributes] is the two formatted
    timestamps or the exception of the formatting. *)
Theorem window_None_or_whole (entity_id entity_state : string)
  (start end_ duration : option Template) (name : string) (now : Q)
  (cycles : list cycle) (local_format : Z -> result string) :
  let self' :=
    fst (run_cycles
           (__init__ entity_id entity_state start end_ duration name now)
           cycles) in
  (_period self' = (None, None)
   /\ state_attributes local_format self' = Raise TypeError)
  \/ (exists a b,
        _period self' = (Some a, Some b)
        /\ state_attributes local_format self'
           = match local_format a, local_format b with
             | Ok x, Ok y => Ok [("start", x); ("end", y)]
             | Raise e, _ => Raise e
             | Ok _, Raise e => Raise e
             end).
Proof.
  intros self'.
  destruct (run_cycles_frame
              (__init__ entity_id entity_state start end_ duration name now)
              cycles) as (_ & _ & _ & _ & _ & _ & Hp & _).
  fold self' in Hp. simpl in Hp. unfold state_attributes.
  destruct Hp as [Hp | Hp].
  - left. rewrite Hp. split; reflexivity.
  - right. destruct (_period self') as [[a |] [b |]]; try discriminate.
    exists a, b. split; [reflexivity |]. simpl.
    destruct (local_format a); [| reflexivity].
    destruct (local_format b); reflexivity.
Qed.

(** X15. A cycle run a second time against the same renderer, history
    and clock has the outcome of the first and leaves the object as
    the first left it. *)
Theorem async_update_twice (env : render_env) (hist : history.store)
  (now : Q) (self : HistoryStatsSensor) :
  let once := async_update env hist now self in
  let twice := async_update env hist now (final once) in
  final twice = final once /\ outcome twice = outcome once.
Proof.
  intros once twice.
  (* the first cycle *)
  destruct (async_update_shape env hist now self) as (p1 & v1 & Hf1 & _).
  fold once in Hf1.
  assert (_start self = _start (final once)
          /\ _end self = _end (final once)
          /\ _duration self = _duration (final once)) as (Hs & He & Hd)
    by (rewrite Hf1; repeat split).
  destruct (update_period_same_templates env self (final once) Hs He Hd)
    as (Ho & Ht & Hfin).
  assert (_entity_id (final once) = _entity_id self
          /\ _entity_state (final once) = _entity_state self
          /\ _init (final once) = _init self) as (Hid & Hst & Hin)
    by (rewrite Hf1; repeat split).
  (* [update_period] in the second cycle leaves the object as it is *)
  assert (_period (final once) = _period (final (update_period env self)))
    as Hp1 by (apply (proj1 (async_update_period env hist now self))).
  assert (final (update_period env (final once)) = final once) as Hf2.
  { destruct Hfin as [(_ & H & _) | (p & H & H' & _)]; [exact H |].
    rewrite H'. rewrite <- (with_period_same (final once)) at 2.
    rewrite Hp1, H. reflexivity. }
  unfold twice.
  destruct (async_update_cases env hist now self)
    as [(e & Hrun & Hwhy) | (a & b & Hok & Hab & Ha & Hb)].
  - (* the first cycle stops *)
    assert (outcome once = Raise e) as Ho1
      by (unfold once; rewrite Hrun; reflexivity).
    rewrite Ho1.
    destruct (async_update_cases env hist now (final once))
      as [(e' & Hrun' & Hwhy') | (a & b & Hok' & Hab' & Ha' & Hb')].
    + rewrite Hrun'. unfold final at 1, outcome at 1. simpl.
      split; [exact Hf2 |]. f_equal.
      rewrite Hf2, Hp1, <- Ho in Hwhy'.
      destruct Hwhy as [Hr | [Hok Hc]], Hwhy' as [Hr' | [Hok' Hc']];
        try congruence.
      symmetry. exact (conversion_raises_one _ _ _ Hc Hc').
    + exfalso. rewrite Hf2, Hp1 in Hab'. rewrite <- Ho in Hok'.
      destruct Hwhy as [Hr | [_ Hc]]; [congruence |].
      exact (conversion_raises_not_Ok _ _ a b Hc Hab' Ha' Hb').
  - (* the first cycle goes on *)
    assert (outcome (update_period env (final once)) = Ok tt) as Hok2
      by congruence.
    assert (_period (final (update_period env (final once)))
            = (Some a, Some b)) as Hab2
      by (rewrite Hf2, Hp1; exact Hab).
    rewrite (async_update_converted env hist now (final once) a b Hok2 Hab2
               Ha Hb).
    rewrite Hf2, Hid, Hst, Hin.
    pose proof (async_update_converted env hist now self a b Hok Hab Ha Hb)
      as Hone.
    fold once in Hone.
    destruct (Qltb now _).
    { rewrite Hone. auto. }
    destruct (dict_get _ _) as [items |].
    + rewrite Hone. unfold final, outcome. simpl. auto.
    + rewrite Hone. auto.
Qed.

(** ** More on the elapsed time *)

Lemma elapsed_in_state_loop (target : string) (first : option string)
  (start_ts : Z) (items : list history.State) :
  elapsed_in_state target first start_ts items
  = elapsed (fold_left (loop_body target) items
               (loop_start target first start_ts)).
Proof. reflexivity. Qed.






Lemma loop_out_of_state (target : string) (items : list history.State) :
  forall vars : loop_vars,
    last_state vars = false ->
    forallb (fun item => negb (in_state target item)) items = true ->
    elapsed (fold_left (loop_body target) items vars) = elapsed vars.
Proof.
  induction items as [| item rest IH]; intros vars Hs Hall; simpl.
  - reflexivity.
  - simpl in Hall. apply andb_true_iff in Hall. destruct Hall as [Hi Hr].
    rewrite IH; simpl.
    + rewrite Hs. reflexivity.
    + unfold in_state in Hi. apply negb_true_iff in Hi. exact Hi.
    + exact Hr.
Qed.


(** X18. When the entity is not in the target state at the window
    start and no event enters it, nothing elapses, in whatever order
    the events come. *)
Theorem elapsed_never_in_state (target : string) (first : option string)
  (start_ts : Z) (items : list history.State) :
  starts_in_state target first = false ->
  forallb (fun item => negb (in_state target item)) items = true ->
  elapsed_in_state target first start_ts items = 0%Q.
Proof.
  intros Hs Hall. rewrite elapsed_in_state_loop.
  rewrite (loop_out_of_state target items
             (loop_start target first start_ts) Hs Hall).
  reflexivity.
Qed.

Lemma elapsed_never_in_state_witness :
  elapsed_in_state "on" (Some "off") 0
    [Example.change "off" 600; Example.change "unavailable" 1800]
  = 0%Q.
Proof.
  apply (elapsed_never_in_state "on" (Some "off") 0
           [Example.change "off" 600; Example.change "unavailable" 1800]);
    reflexivity.
Defined.





(** ** Strings *)

Lemma length_append (a b : string) :
  String.length (a ++ b) = (String.length a + String.length b)%nat.
Proof. induction a as [| c a IH]; simpl; [| rewrite IH]; reflexivity. Qed.

Lemma append_nil (a : string) : a ++ "" = a.
Proof. induction a as [| c a IH]; simpl; [| rewrite IH]; reflexivity. Qed.

Lemma append_assoc (a b c : string) : (a ++ b) ++ c = a ++ b ++ c.
Proof. induction a as [| x a IH]; simpl; [| rewrite IH]; reflexivity. Qed.

Lemma take_append (a b : string) : Str.take (String.length a) (a ++ b) = a.
Proof. induction a as [| c a IH]; simpl; [destruct b | rewrite IH]; reflexivity. Qed.

Lemma strip_prefix_append (p s : string) :
  Str.strip_prefix p (p ++ s) = Some s.
Proof.
  induction p as [| c p IH]; simpl; [reflexivity |].
  rewrite Ascii.eqb_refl. exact IH.
Qed.

Lemma string_forallb_append (f : ascii -> bool) (a b : string) :
  string_forallb f (a ++ b) = string_forallb f a && string_forallb f b.
Proof.
  induction a as [| c a IH]; simpl; [reflexivity |].
  rewrite IH, andb_assoc. reflexivity.
Qed.

(** ** [str.replace] where the old text does not occur *)

Lemma replace_scan_absent (old new : string) (s : string) :
  Str.occurrences old s = 0%nat -> Str.replace_scan 0 old new s = s.
Proof.
  induction s as [| c s IH]; simpl; [reflexivity |].
  intros H. destruct (Str.startswith (String c s) old); [discriminate |].
  rewrite IH; [reflexivity | exact H].
Qed.

Lemma replace_absent (s old new : string) :
  old <> "" -> Str.occurrences old s = 0%nat -> Str.replace s old new = s.
Proof.
  intros Hne H. destruct old; [contradiction Hne; reflexivity |].
  apply replace_scan_absent. exact H.
Qed.

(** ** [re.sub] where [now()] does not occur *)

Lemma match_here_startswith (s : string) :
  Str.startswith s "now()" = false -> Regex.match_here s = None.
Proof.
  unfold Str.startswith, Regex.match_here.
  destruct (Str.strip_prefix "now()" s); [discriminate | reflexivity].
Qed.

Lemma sub_absent (s : string) :
  Str.occurrences "now()" s = 0%nat -> Regex.sub s = s.
Proof.
  unfold Regex.sub.
  induction s as [| c s IH]; [reflexivity |].
  intros H. cbn [Str.occurrences] in H.
  destruct (Str.startswith (String c s) "now()") eqn:E; [discriminate |].
  cbn [Regex.sub_scan]. rewrite (match_here_startswith _ E).
  rewrite IH; [reflexivity | exact H].
Qed.

(** X21. A text in which no alias and no [now()] occurs is returned
    as it is. *)
Theorem parse_time_expr_plain (s : string) :
  plain s = true -> parse_time_expr s = s.
Proof.
  unfold plain, ALIASES. cbn [forallb].
  rewrite !andb_true_iff, !Nat.eqb_eq.
  intros (Hnow & Hy & Hm & Hd & Hh & Hmin & Hn & _).
  unfold parse_time_expr.
  rewrite (replace_absent s "_THIS_YEAR_") by (discriminate || assumption).
  rewrite (replace_absent s "_THIS_MONTH_") by (discriminate || assumption).
  rewrite (replace_absent s "_TODAY_") by (discriminate || assumption).
  rewrite (replace_absent s "_THIS_HOUR_") by (discriminate || assumption).
  rewrite (replace_absent s "_THIS_MINUTE_") by (discriminate || assumption).
  rewrite (replace_absent s "_NOW_") by (discriminate || assumption).
  apply sub_absent. exact Hnow.
Qed.

Lemma parse_time_expr_plain_witness :
  parse_time_expr "{{ states.input_number.from.state }}"
  = "{{ states.input_number.from.state }}".
Proof.
  apply (parse_time_expr_plain "{{ states.input_number.from.state }}").
  reflexivity.
Defined.

(** ** The regular expression on printed chains *)

Lemma span_all (f : ascii -> bool) (a : string) (c : ascii) (rest : string) :
  string_forallb f a = true -> f c = false ->
  Str.span f (a ++ String c rest) = (a, String c rest).
Proof.
  intros Ha Hc. induction a as [| x a IH]; simpl.
  - rewrite Hc. reflexivity.
  - simpl in Ha. apply andb_true_iff in Ha. destruct Ha as [Hx Ha].
    rewrite Hx, (IH Ha). reflexivity.
Qed.

Lemma uint_digits (d : Decimal.uint) :
  string_forallb Regex.is_digit (NilEmpty.string_of_uint d) = true.
Proof. induction d; simpl; try rewrite IHd; reflexivity. Qed.

Lemma nat_digits (v : nat) :
  string_forallb Regex.is_digit (NilZero.string_of_uint (Nat.to_uint v))
  = true
  /\ NilZero.string_of_uint (Nat.to_uint v) <> "".
Proof.
  unfold NilZero.string_of_uint.
  destruct (Nat.to_uint v) eqn:E; simpl;
    try (split; [try apply uint_digits; reflexivity | discriminate]).
Qed.

(** One [.replace(field=value)] is one iteration of the group. *)
Lemma match_group_replace (field : string) (value : nat) (rest : string) :
  field_name field = true ->
  Regex.match_group
    (".replace(" ++ field ++ "="
     ++ NilZero.string_of_uint (Nat.to_uint value) ++ ")" ++ rest)
  = Some rest.
Proof.
  intros Hf. unfold Regex.match_group.
  rewrite (strip_prefix_append ".replace(").
  destruct field as [| c field]; [discriminate |].
  unfold field_name in Hf.
  change ("=" ++ ?x) with (String "="%char x).
  rewrite (span_all Regex.is_lower (String c field) "=" _ Hf eq_refl).
  cbn [Str.strip_prefix]. rewrite Ascii.eqb_refl.
  destruct (nat_digits value) as [Hd Hne].
  destruct (NilZero.string_of_uint (Nat.to_uint value)) as [| d ds];
    [contradiction Hne; reflexivity |].
  change (")" ++ rest) with (String ")"%char rest).
  rewrite (span_all Regex.is_digit (String d ds) ")" rest Hd eq_refl).
  cbn [Str.strip_prefix]. rewrite Ascii.eqb_refl. reflexivity.
Qed.

Lemma show_moment_groups (m : TimeExpr.moment) :
  TimeExpr.show_moment m = "now()" ++ groups_text m.
Proof.
  induction m as [| m IH field value]; [reflexivity |].
  cbn [TimeExpr.show_moment groups_text]. rewrite IH.
  rewrite append_assoc. reflexivity.
Qed.

(** The star runs through the replacements of a chain. *)
Lemma match_groups_chain (m : TimeExpr.moment) :
  fields_ok m = true ->
  forall (rest : string) (fuel : nat),
    Regex.match_groups (groups_count m + fuel) (groups_text m ++ rest)
    = Regex.match_groups fuel rest.
Proof.
  induction m as [| m IH field value]; intros Hok rest fuel.
  - reflexivity.
  - cbn [fields_ok] in Hok. apply andb_true_iff in Hok.
    destruct Hok as [Hf Hm].
    cbn [groups_text groups_count]. rewrite append_assoc.
    replace (S (groups_count m) + fuel)%nat
      with (groups_count m + S fuel)%nat by lia.
    rewrite (IH Hm). cbn [Regex.match_groups].
    rewrite !append_assoc.
    rewrite (match_group_replace field value rest Hf). reflexivity.
Qed.

Lemma groups_count_length (m : TimeExpr.moment) :
  (groups_count m <= String.length (groups_text m))%nat.
Proof.
  induction m as [| m IH field value]; simpl; [lia |].
  rewrite length_append. simpl. lia.
Qed.

Lemma match_groups_stop (fuel : nat) (s : string) :
  Regex.match_group s = None -> Regex.match_groups fuel s = s.
Proof. intros H. destruct fuel; simpl; [| rewrite H]; reflexivity. Qed.

Lemma match_here_chain (m : TimeExpr.moment) (post : string) :
  fields_ok m = true ->
  Regex.match_group post = None ->
  Regex.match_here (TimeExpr.show_moment m ++ post)
  = Some (String.length (TimeExpr.show_moment m)).
Proof.
  intros Hok Hpost. unfold Regex.match_here.
  rewrite show_moment_groups, append_assoc.
  rewrite (strip_prefix_append "now()").
  pose proof (groups_count_length m) as Hn.
  rewrite (length_append (groups_text m) post).
  replace (String.length (groups_text m) + String.length post)%nat
    with (groups_count m
          + (String.length (groups_text m) - groups_count m
             + String.length post))%nat by lia.
  rewrite (match_groups_chain m Hok), (match_groups_stop _ _ Hpost).
  rewrite !length_append. f_equal. lia.
Qed.

Lemma sub_scan_skip (a b : string) :
  Regex.sub_scan (String.length a) (a ++ b) = Regex.sub_scan 0 b.
Proof.
  induction a as [| c a IH]; [reflexivity |].
  cbn [String.length append Regex.sub_scan]. exact IH.
Qed.

Lemma sub_scan_match (c : ascii) (m post : string) :
  Regex.match_here (String c m ++ post) = Some (String.length (String c m)) ->
  Regex.sub_scan 0 (String c m ++ post)
  = "as_timestamp(" ++ String c m ++ ")" ++ Regex.sub_scan 0 post.
Proof.
  intros H.
  change (String c m ++ post) with (String c (m ++ post)) in *.
  cbn [Regex.sub_scan]. rewrite H.
  change (String c (m ++ post)) with (String c m ++ post).
  rewrite take_append.
  cbn [String.length Nat.sub]. rewrite Nat.sub_0_r, sub_scan_skip. reflexivity.
Qed.

(** Before a text that begins with [n], a text without [now()] is
    passed over: no match begins in it. *)
Lemma startswith_now_straddle (u rest : string) :
  u <> "" ->
  Str.startswith u "now()" = false ->
  Str.startswith (u ++ String "n" rest) "now()" = false.
Proof.
  unfold Str.startswith.
  destruct u as [| c1 u]; [intros H; contradiction H; reflexivity |].
  intros _.
  destruct u as [| c2 [| c3 [| c4 [| c5 u]]]];
    cbn [Str.strip_prefix append];
    repeat match goal with
           | |- context [Ascii.eqb ?a ?b] =>
               destruct (Ascii.eqb a b) eqn:?; cbn [Str.strip_prefix append]
           end;
    intros;
    first [ reflexivity
          | discriminate
          | match goal with
            | H : Ascii.eqb _ _ = true |- _ => vm_compute in H; discriminate H
            end ].
Qed.

Lemma sub_scan_before (pre rest : string) :
  Str.occurrences "now()" pre = 0%nat ->
  Regex.sub_scan 0 (pre ++ String "n" rest)
  = pre ++ Regex.sub_scan 0 (String "n" rest).
Proof.
  induction pre as [| c pre IH]; [reflexivity |].
  intros H. cbn [Str.occurrences] in H.
  destruct (Str.startswith (String c pre) "now()") eqn:E; [discriminate |].
  change (String c pre ++ String "n" rest)
    with (String c (pre ++ String "n" rest)).
  cbn [Regex.sub_scan].
  rewrite (match_here_startswith (String c (pre ++ String "n" rest))).
  2: { apply (startswith_now_straddle (String c pre) rest);
       [discriminate | exact E]. }
  rewrite IH; [reflexivity | exact H].
Qed.

(** The substitution wraps a printed chain where it stands. *)
Lemma sub_chain (m : TimeExpr.moment) (pre post : string) :
  fields_ok m = true ->
  Str.occurrences "now()" pre = 0%nat ->
  Regex.match_group post = None ->
  Regex.sub (pre ++ TimeExpr.show_moment m ++ post)
  = pre ++ TimeExpr.show (TimeExpr.as_timestamp m) ++ Regex.sub post.
Proof.
  intros Hok Hpre Hpost. unfold Regex.sub.
  pose proof (match_here_chain m post Hok Hpost) as Hm.
  rewrite show_moment_groups in *.
  change ("now()" ++ groups_text m)
    with (String "n" ("ow()" ++ groups_text m)) in *.
  change (String "n" ?x ++ post) with (String "n" (x ++ post)).
  rewrite (sub_scan_before pre _ Hpre).
  change (String "n" (("ow()" ++ groups_text m) ++ post))
    with (String "n" ("ow()" ++ groups_text m) ++ post).
  rewrite (sub_scan_match _ _ _ Hm).
  unfold TimeExpr.show. rewrite show_moment_groups.
  rewrite !append_assoc. reflexivity.
Qed.

(** X22. [re.sub] with the expression and replacement of
    [parse_time_expr] wraps the printed form of any chain of
    replacements on [now()] with lower-case field names in one
    [as_timestamp], all its replacements included, where it stands:
    the text before it, without [now()], is kept, and the text after
    it, which does not go on with a further replacement, is
    substituted in turn. *)
Theorem sub_wraps_chain (m : TimeExpr.moment) (pre post : string) :
  fields_ok m = true ->
  Str.occurrences "now()" pre = 0%nat ->
  Regex.match_group post = None ->
  Regex.sub (pre ++ TimeExpr.show_moment m ++ post)
  = pre ++ TimeExpr.show (TimeExpr.as_timestamp m) ++ Regex.sub post.
Proof. exact (sub_chain m pre post). Qed.

Lemma sub_wraps_chain_witness :
  Regex.sub "{{ now().replace(day=1).replace(hour=0) - 3600 }}"
  = "{{ as_timestamp(now().replace(day=1).replace(hour=0)) - 3600 }}".
Proof.
  apply (sub_wraps_chain
           (TimeExpr.replace (TimeExpr.replace TimeExpr.now "day" 1) "hour" 0)
           "{{ " " - 3600 }}"); reflexivity.
Defined.

(** ** The replacement of aliases inside a text *)

(** A text without underscore does not begin with a text that has
    one. *)
Lemma strip_prefix_underscore (q : string) :
  forall s : string,
    no_underscore s = true -> no_underscore q = false ->
    Str.strip_prefix q s = None.
Proof.
  unfold no_underscore.
  induction q as [| a q IH]; intros s Hs Hq; simpl in *; [discriminate |].
  destruct s as [| b s]; [reflexivity |].
  simpl in Hs. apply andb_true_iff in Hs. destruct Hs as [Hb Hs].
  destruct (Ascii.eqb a b) eqn:E; [| reflexivity].
  apply Ascii.eqb_eq in E. subst b. rewrite Hb in Hq. simpl in Hq.
  apply IH; assumption.
Qed.

Lemma replace_scan_before (q new pre rest : string) :
  no_underscore pre = true ->
  Str.replace_scan 0 (String "_" q) new (pre ++ rest)
  = pre ++ Str.replace_scan 0 (String "_" q) new rest.
Proof.
  unfold no_underscore.
  induction pre as [| c pre IH]; intros H; [reflexivity |].
  simpl in H. apply andb_true_iff in H. destruct H as [Hc H].
  change (String c pre ++ rest) with (String c (pre ++ rest)).
  cbn [Str.replace_scan]. unfold Str.startswith. cbn [Str.strip_prefix].
  unfold is_underscore in Hc. rewrite Ascii.eqb_sym in Hc.
  apply negb_true_iff in Hc. rewrite Hc, (IH H). reflexivity.
Qed.

Lemma replace_scan_plain (q new post : string) :
  no_underscore post = true ->
  Str.replace_scan 0 (String "_" q) new post = post.
Proof.
  intros H. rewrite <- (append_nil post) at 1.
  rewrite (replace_scan_before q new post "" H). simpl.
  apply append_nil.
Qed.

Lemma replace_scan_last_underscore (q new post : string) :
  no_underscore post = true -> no_underscore q = false ->
  Str.replace_scan 0 (String "_" q) new (String "_" post)
  = String "_" post.
Proof.
  intros Hp Hq. cbn [Str.replace_scan]. unfold Str.startswith.
  cbn [Str.strip_prefix]. rewrite Ascii.eqb_refl.
  rewrite (strip_prefix_underscore q post Hp Hq).
  rewrite (replace_scan_plain q new post Hp). reflexivity.
Qed.

Lemma field_name_no_underscore (f : string) :
  field_name f = true -> no_underscore f = true.
Proof.
  intros H. assert (string_forallb Regex.is_lower f = true) as Hl
    by (destruct f; [discriminate | exact H]).
  clear H. unfold no_underscore.
  induction f as [| c f IH]; [reflexivity |].
  simpl in *. apply andb_true_iff in Hl. destruct Hl as [Hc Hl].
  rewrite (IH Hl), andb_true_r.
  unfold is_underscore. destruct (Ascii.eqb c "_") eqn:E; [| reflexivity].
  apply Ascii.eqb_eq in E. subst c. discriminate Hc.
Qed.

Lemma digits_no_underscore (s : string) :
  string_forallb Regex.is_digit s = true -> no_underscore s = true.
Proof.
  unfold no_underscore. induction s as [| c s IH]; [reflexivity |].
  simpl. intros H. apply andb_true_iff in H. destruct H as [Hc H].
  rewrite (IH H), andb_true_r.
  unfold is_underscore. destruct (Ascii.eqb c "_") eqn:E; [| reflexivity].
  apply Ascii.eqb_eq in E. subst c. discriminate Hc.
Qed.

Lemma no_underscore_append (a b : string) :
  no_underscore (a ++ b) = no_underscore a && no_underscore b.
Proof. apply string_forallb_append. Qed.

Lemma replaces_text_no_underscore (rs : list (string * nat)) :
  forallb (fun r => field_name (fst r)) rs = true ->
  no_underscore (replaces_text rs) = true.
Proof.
  induction rs as [| [f v] rs IH]; [reflexivity |].
  cbn [forallb fst replaces_text]. intros H.
  apply andb_true_iff in H. destruct H as [Hf H].
  rewrite !no_underscore_append.
  rewrite (field_name_no_underscore f Hf).
  rewrite (digits_no_underscore _ (proj1 (nat_digits v))).
  rewrite (IH H). reflexivity.
Qed.

Lemma replaces_groups (rs : list (string * nat)) :
  forall m : TimeExpr.moment,
    groups_text (replaces m rs) = groups_text m ++ replaces_text rs
    /\ (forallb (fun r => field_name (fst r)) rs = true ->
        fields_ok m = true -> fields_ok (replaces m rs) = true).
Proof.
  induction rs as [| [f v] rs IH]; intros m.
  - split; [symmetry; apply append_nil | auto].
  - cbn [replaces replaces_text forallb fst].
    destruct (IH (TimeExpr.replace m f v)) as [Ht Hok]. split.
    + rewrite Ht. cbn [groups_text]. rewrite !append_assoc. reflexivity.
    + intros H Hm. apply andb_true_iff in H. destruct H as [Hf H].
      apply Hok; [exact H |]. cbn [fields_ok]. rewrite Hf, Hm. reflexivity.
Qed.

(** The six replacements of lines 229-235 on an alias followed by a
    text [t] without underscore, after a text without underscore. *)
Ltac to_scans :=
  cbv beta iota delta [Str.replace].

Ltac stage_pass pre t :=
  rewrite (replace_scan_before _ _ pre) by assumption;
  let tail := fresh "tail" in
  let E := fresh "E" in
  remember (String "_" t) as tail eqn:E;
  simpl; subst tail;
  rewrite (replace_scan_last_underscore _ _ t) by (assumption || reflexivity).

Ltac stage_hit pre t :=
  rewrite (replace_scan_before _ _ pre) by assumption;
  simpl;
  rewrite (replace_scan_plain _ _ t) by assumption.

Lemma aliases_replaced (a : alias) (pre t : string) :
  no_underscore pre = true -> no_underscore t = true ->
  Str.replace
    (Str.replace
      (Str.replace
        (Str.replace
          (Str.replace
            (Str.replace (pre ++ token a ++ t)
              "_THIS_YEAR_" "_THIS_MONTH_.replace(month=1)")
            "_THIS_MONTH_" "_TODAY_.replace(day=1)")
          "_TODAY_" "_THIS_HOUR_.replace(hour=0)")
        "_THIS_HOUR_" "_THIS_MINUTE_.replace(minute=0)")
      "_THIS_MINUTE_" "_NOW_.replace(second=0)")
    "_NOW_" "now()"
  = pre ++ TimeExpr.show_moment (chain a) ++ t.
Proof.
  intros Hpre Ht. to_scans.
  destruct a; cbn [token]; simpl (String _ _ ++ t).
  - stage_hit pre t. stage_hit pre t. stage_hit pre t. stage_hit pre t. stage_hit pre t. stage_hit pre t.
    reflexivity.
  - stage_pass pre t. stage_hit pre t. stage_hit pre t. stage_hit pre t. stage_hit pre t. stage_hit pre t.
    reflexivity.
  - stage_pass pre t. stage_pass pre t. stage_hit pre t. stage_hit pre t. stage_hit pre t. stage_hit pre t.
    reflexivity.
  - stage_pass pre t. stage_pass pre t. stage_pass pre t. stage_hit pre t. stage_hit pre t.
    stage_hit pre t. reflexivity.
  - stage_pass pre t. stage_pass pre t. stage_pass pre t. stage_pass pre t. stage_hit pre t.
    stage_hit pre t. reflexivity.
  - stage_pass pre t. stage_pass pre t. stage_pass pre t. stage_pass pre t. stage_pass pre t.
    stage_hit pre t. reflexivity.
Qed.

Lemma chain_fields_ok (a : alias) : fields_ok (chain a) = true.
Proof. destruct a; reflexivity. Qed.

(** X23. An alias inside a template, after a text and before a text
    that hold no underscore and no [now()], and followed by any
    number of further [.replace(field=value)] with lower-case field
    names, is expanded where it stands: the result is the text
    before, one [as_timestamp] around the chain of the alias extended
    by the further replacements, and the text after. *)
Theorem alias_expands_in_place (a : alias) (rs : list (string * nat))
  (pre post : string) :
  no_underscore pre = true ->
  no_underscore post = true ->
  forallb (fun r => field_name (fst r)) rs = true ->
  Str.occurrences "now()" pre = 0%nat ->
  Str.occurrences "now()" post = 0%nat ->
  Regex.match_group post = None ->
  parse_time_expr (pre ++ token a ++ replaces_text rs ++ post)
  = pre
    ++ TimeExpr.show (TimeExpr.as_timestamp (replaces (chain a) rs))
    ++ post.
Proof.
  intros Hpre Hpost Hrs Npre Npost Gpost.
  unfold parse_time_expr.
  rewrite (aliases_replaced a pre (replaces_text rs ++ post) Hpre).
  2: { rewrite no_underscore_append, Hpost,
         (replaces_text_no_underscore rs Hrs). reflexivity. }
  destruct (replaces_groups rs (chain a)) as [Hg Hok].
  assert (TimeExpr.show_moment (chain a) ++ replaces_text rs ++ post
          = TimeExpr.show_moment (replaces (chain a) rs) ++ post) as ->.
  { rewrite !show_moment_groups, Hg, !append_assoc. reflexivity. }
  rewrite (sub_chain _ pre post (Hok Hrs (chain_fields_ok a)) Npre
             Gpost).
  rewrite (sub_absent post Npost). reflexivity.
Qed.

Lemma alias_expands_in_place_witness :
  parse_time_expr "{{ _THIS_MONTH_.replace(day=15) - 86400 }}"
  = "{{ as_timestamp(now().replace(second=0).replace(minute=0)"
    ++ ".replace(hour=0).replace(day=1).replace(day=15)) - 86400 }}".
Proof.
  apply (alias_expands_in_place THIS_MONTH [("day", 15)] "{{ "
           " - 86400 }}"); reflexivity.
Defined.
